(** * sdl-jstest: a shallow embedding of [src/sdl-jstest.c]

    The program is a single C file.  Its pure helpers ([str2int], the bar
    position arithmetic, the hat diagram) become Rocq functions on [Z] and
    [string]; its output functions ([printf], [fprintf(stderr, ..)], the
    curses calls) become a trace of calls that keeps every format string and
    argument list as the source writes them; [exit], a failed [assert] and
    the normal [return] of [main] become the outcome of a small
    writer-and-exit monad.  What the program reads from outside (SDL, the
    terminal, the build) is gathered in a record [Env].

    Platform: the LP64 data model (32-bit [int], 64-bit [long]), ISO C
    [strtol], and [assert] active ([NDEBUG] is not defined by the file). *)

From Stdlib Require Import ZArith Lia Bool Ascii String List.
From stdpp Require Import base list strings.
Import ListNotations.

Local Open Scope string_scope.
Local Open Scope list_scope.
Local Open Scope Z_scope.

(** ** Machine integers *)

Module CInt.

Definition INT_MIN : Z := - 2 ^ 31.
Definition INT_MAX : Z := 2 ^ 31 - 1.
Definition LONG_MIN : Z := - 2 ^ 63.
Definition LONG_MAX : Z := 2 ^ 63 - 1.
Definition ERANGE : Z := 34.

(** Two's-complement reduction of a mathematical result to [int].  Signed
    overflow is undefined in C; the model takes the wrap-around that the
    usual targets produce, and the theorems below say where it occurs. *)
Definition int_wrap (z : Z) : Z := (z + 2 ^ 31) mod 2 ^ 32 - 2 ^ 31.

Definition int_add (a b : Z) : Z := int_wrap (a + b).
Definition int_sub (a b : Z) : Z := int_wrap (a - b).
Definition int_mul (a b : Z) : Z := int_wrap (a * b).
(** [/] on [int] truncates towards zero. *)
Definition int_div (a b : Z) : Z := int_wrap (Z.quot a b).

Definition in_int (z : Z) : Prop := INT_MIN <= z <= INT_MAX.
Definition is_uint8 (z : Z) : Prop := 0 <= z < 256.
Definition is_sint16 (z : Z) : Prop := -32768 <= z <= 32767.

End CInt.
Export CInt.

(** ** [strtol] in base 10 and [str2int] *)

Definition isspace (c : ascii) : bool :=
  let n := Z.of_N (N_of_ascii c) in
  (n =? 32) || ((9 <=? n) && (n <=? 13)).

Definition digit_val (c : ascii) : option Z :=
  let n := Z.of_N (N_of_ascii c) in
  if (48 <=? n) && (n <=? 57) then Some (n - 48) else None.

Fixpoint skip_space (s : string) : string :=
  match s with
  | String c r => if isspace c then skip_space r else s
  | EmptyString => s
  end.

(** The longest run of decimal digits at the head of [s]: its value when the
    run is not empty, and the text after it. *)
Fixpoint scan_digits (acc : option Z) (s : string) : option Z * string :=
  match s with
  | String c r =>
      match digit_val c with
      | Some d => scan_digits (Some (10 * default 0 acc + d)) r
      | None => (acc, s)
      end
  | EmptyString => (acc, s)
  end.

Definition scan_sign (s : string) : bool * string :=
  match s with
  | String c r =>
      if Ascii.eqb c "-" then (true, r)
      else if Ascii.eqb c "+" then (false, r)
      else (false, s)
  | EmptyString => (false, s)
  end.

(** [strtol(str, &endptr, 10)] called with [errno = 0]: the returned value,
    the text [endptr] points to, and [errno] afterwards.  When no digit is
    found no conversion is performed: the value is 0, [endptr] is [str] and
    [errno] is left alone. *)
Definition strtol10 (str : string) : Z * string * Z :=
  let '(neg, body) := scan_sign (skip_space str) in
  match scan_digits None body with
  | (None, _) => (0, str, 0)
  | (Some n, rest) =>
      let v := if neg then - n else n in
      if v <? LONG_MIN then (LONG_MIN, rest, ERANGE)
      else if LONG_MAX <? v then (LONG_MAX, rest, ERANGE)
      else (v, rest, 0)
  end.

(** [int str2int(const char* str, int* val)]: [None] for the return value 0,
    [Some v] for the return value 1 with [*val = v]. *)
Definition str2int (str : string) : option Z :=
  let '(tmp, endptr, errno) := strtol10 str in
  if negb (errno =? 0) then None
  else if negb (String.eqb endptr "") then None
  else if (tmp <? INT_MIN) || (INT_MAX <? tmp) then None
  else Some (int_wrap tmp).

(** What "a base-10 integer" is, independently of [strtol]: blanks, an
    optional sign, and at least one decimal digit, nothing else. *)
Fixpoint decimal_value (acc : Z) (ds : list ascii) : option Z :=
  match ds with
  | [] => Some acc
  | c :: r =>
      match digit_val c with
      | Some d => decimal_value (10 * acc + d) r
      | None => None
      end
  end.

Definition sign_value (sign : string) (n : Z) : option Z :=
  if String.eqb sign "" then Some n
  else if String.eqb sign "+" then Some n
  else if String.eqb sign "-" then Some (- n)
  else None.

Definition decimal_text (s : string) (v : Z) : Prop :=
  exists ws sign ds n,
    s = ws +:+ sign +:+ ds /\
    forallb isspace (list_ascii_of_string ws) = true /\
    ds <> "" /\
    decimal_value 0 (list_ascii_of_string ds) = Some n /\
    sign_value sign n = Some v.

(** ** The trace of output calls *)

Inductive arg : Type :=
| AInt (z : Z)
| AStr (s : string)
| AChar (c : ascii).

Inductive call : Type :=
| printf (fmt : string) (args : list arg)
| fprintf_stderr (fmt : string) (args : list arg)
| printw (fmt : string) (args : list arg)
| addch (c : ascii)
| move (y x : Z)
| refresh
| initscr
| noecho
| nodelay_stdscr (bf : bool)
| curs_set (visibility : Z)
| endwin.

Definition trace : Type := list call.

(** ** The axis bar *)

(** [void print_bar(int pos, int len)] *)
Definition print_bar (pos len : Z) : trace :=
  [addch "["%char]
    ++ map (fun i => if i =? pos then addch "#"%char else addch " "%char)
           (seqZ 0 len)
    ++ [addch "]"%char].

(** The first argument of [print_bar] in the axes loop:
    [(axes[i] + 32767) * (len-1) / 65534]. *)
Definition bar_pos (value len : Z) : Z :=
  int_div (int_mul (int_add value 32767) (int_sub len 1)) 65534.

(** ** Control: output, [exit], [assert], and loops that wait for input *)

Inductive outcome (A : Type) : Type :=
| Ret (a : A)        (* the code ran to its end with value [a] *)
| Exit (code : Z)    (* [exit(code)] was called *)
| Abort              (* an [assert] failed *)
| Pending.           (* the scripted input ran out while a loop was waiting *)
Arguments Ret {A} a.
Arguments Exit {A} code.
Arguments Abort {A}.
Arguments Pending {A}.

Definition M (A : Type) : Type := trace * outcome A.

Definition ret {A} (a : A) : M A := ([], Ret a).

Definition bind {A B} (m : M A) (f : A -> M B) : M B :=
  match m with
  | (t, Ret a) => let '(t', r) := f a in (t ++ t', r)
  | (t, Exit code) => (t, Exit code)
  | (t, Abort) => (t, Abort)
  | (t, Pending) => (t, Pending)
  end.

Definition emit (t : trace) : M unit := (t, Ret tt).
Definition exit {A} (code : Z) : M A := ([], Exit code).
Definition assert (cond : bool) : M unit := if cond then ret tt else ([], Abort).

Declare Scope prog_scope.
Delimit Scope prog_scope with prog.
Notation "'let*' x ':=' m 'in' k" := (bind m (fun x => k))
  (at level 10, x name, m at level 100, k at level 200) : prog_scope.
Notation "m ;; k" := (bind m (fun _ => k))
  (at level 100, k at level 200, only parsing, right associativity) : prog_scope.
Local Open Scope prog_scope.

Definition EXIT_SUCCESS : Z := 0.
Definition EXIT_FAILURE : Z := 1.

(** ** What the program sees of SDL, the terminal and the build *)

Inductive SDL_Event : Type :=
| SDL_JOYAXISMOTION (which axis value : Z)
| SDL_JOYBUTTONDOWN (which button state : Z)
| SDL_JOYBUTTONUP (which button state : Z)
| SDL_JOYHATMOTION (which hat value : Z)
| SDL_JOYBALLMOTION (which ball xrel yrel : Z)
| SDL_QUIT
| SDL_OTHER (ty : Z).

(** The fields have the C types of SDL's event structs: [Uint8] indices,
    states and hat values, [Sint16] axis values and ball deltas. *)
Definition wf_event (e : SDL_Event) : Prop :=
  match e with
  | SDL_JOYAXISMOTION w a v => is_uint8 w /\ is_uint8 a /\ is_sint16 v
  | SDL_JOYBUTTONDOWN w b s | SDL_JOYBUTTONUP w b s =>
      is_uint8 w /\ is_uint8 b /\ is_uint8 s
  | SDL_JOYHATMOTION w h v => is_uint8 w /\ is_uint8 h /\ is_uint8 v
  | SDL_JOYBALLMOTION w b x y =>
      is_uint8 w /\ is_uint8 b /\ is_sint16 x /\ is_sint16 y
  | SDL_QUIT => True
  | SDL_OTHER _ => True
  end.

(** An opened [SDL_Joystick*]: what the four count queries return. *)
Record SDL_Joystick : Type := {
  SDL_JoystickNumAxes : Z;
  SDL_JoystickNumButtons : Z;
  SDL_JoystickNumHats : Z;
  SDL_JoystickNumBalls : Z
}.

(** Everything the file takes from outside.  The four hat bits and the
    version string are macros of [SDL.h] and of the build; they stay
    parameters.  [poll_script] gives, for each turn of the test loop, the
    events [SDL_PollEvent] hands out before it returns 0 and then the value
    of [getch()]; [wait_script] gives the results of [SDL_WaitEvent], [None]
    when it returns 0. *)
Record Env : Type := {
  SDL_HAT_UP : Z;
  SDL_HAT_RIGHT : Z;
  SDL_HAT_DOWN : Z;
  SDL_HAT_LEFT : Z;
  SDL_JSTEST_VERSION : string;
  SDL_Init_ok : bool;
  SDL_GetError : string;
  SDL_NumJoysticks : Z;
  SDL_JoystickOpen : Z -> option SDL_Joystick;
  SDL_JoystickName : Z -> string;
  COLS : Z;
  poll_script : list (list SDL_Event * Z);
  wait_script : list (option SDL_Event)
}.


(** ** Test mode: the variables of the polling loop *)

Record TestVars : Type := {
  axes : list Z;
  buttons : list Z;
  hats : list Z;
  balls : list Z;
  quit : Z;
  something_new : bool
}.

Definition set_axes (a : list Z) (st : TestVars) : TestVars :=
  {| axes := a; buttons := buttons st; hats := hats st; balls := balls st;
     quit := quit st; something_new := something_new st |}.
Definition set_buttons (b : list Z) (st : TestVars) : TestVars :=
  {| axes := axes st; buttons := b; hats := hats st; balls := balls st;
     quit := quit st; something_new := something_new st |}.
Definition set_hats (h : list Z) (st : TestVars) : TestVars :=
  {| axes := axes st; buttons := buttons st; hats := h; balls := balls st;
     quit := quit st; something_new := something_new st |}.
Definition set_balls (b : list Z) (st : TestVars) : TestVars :=
  {| axes := axes st; buttons := buttons st; hats := hats st; balls := b;
     quit := quit st; something_new := something_new st |}.
Definition set_quit (q : Z) (st : TestVars) : TestVars :=
  {| axes := axes st; buttons := buttons st; hats := hats st;
     balls := balls st; quit := q; something_new := something_new st |}.
Definition set_something_new (b : bool) (st : TestVars) : TestVars :=
  {| axes := axes st; buttons := buttons st; hats := hats st;
     balls := balls st; quit := quit st; something_new := b |}.

(** [a[i] = v] and [a[i]] on a [calloc]ed array.  Every index the program
    uses is a [Uint8] guarded by an [assert], or a loop counter below the
    length, so the position exists. *)
Definition store (a : list Z) (i v : Z) : list Z := <[Z.to_nat i := v]> a.
Definition load (a : list Z) (i : Z) : Z := default 0 (a !! Z.to_nat i).

(** The state after the four [calloc]s and the three initialisations. *)
Definition init_vars (joy : SDL_Joystick) : TestVars :=
  {| axes := replicate (Z.to_nat (SDL_JoystickNumAxes joy)) 0;
     buttons := replicate (Z.to_nat (SDL_JoystickNumButtons joy)) 0;
     hats := replicate (Z.to_nat (SDL_JoystickNumHats joy)) 0;
     balls := replicate (Z.to_nat (2 * SDL_JoystickNumBalls joy)) 0;
     quit := 0;
     something_new := true |}.

(** The lengths the arrays were allocated with. *)
Definition wf_vars (joy : SDL_Joystick) (st : TestVars) : Prop :=
  Z.of_nat (length (axes st)) = SDL_JoystickNumAxes joy /\
  Z.of_nat (length (buttons st)) = SDL_JoystickNumButtons joy /\
  Z.of_nat (length (hats st)) = SDL_JoystickNumHats joy /\
  Z.of_nat (length (balls st)) = 2 * SDL_JoystickNumBalls joy.

(** The body of [while (SDL_PollEvent(&event))] for one event. *)
Definition dispatch (joy : SDL_Joystick) (st0 : TestVars) (event : SDL_Event)
  : M TestVars :=
  let st := set_something_new true st0 in
  match event with
  | SDL_JOYAXISMOTION _ axis value =>
      assert (axis <? SDL_JoystickNumAxes joy) ;;
      ret (set_axes (store (axes st) axis value) st)
  | SDL_JOYBUTTONDOWN _ button state
  | SDL_JOYBUTTONUP _ button state =>
      assert (button <? SDL_JoystickNumButtons joy) ;;
      ret (set_buttons (store (buttons st) button state) st)
  | SDL_JOYHATMOTION _ hat value =>
      assert (hat <? SDL_JoystickNumHats joy) ;;
      ret (set_hats (store (hats st) hat value) st)
  | SDL_JOYBALLMOTION _ ball xrel yrel =>
      assert (ball <? SDL_JoystickNumBalls joy) ;;
      ret (set_balls (store (store (balls st) (2 * ball + 0) xrel)
                            (2 * ball + 1) yrel) st)
  | SDL_QUIT =>
      emit [printf "Recieved interrupt, exiting\n" []] ;;
      ret (set_quit 1 st)
  | SDL_OTHER ty =>
      emit [fprintf_stderr "Error: Unhandled event type: %d\n" [AInt ty]] ;;
      ret st
  end.

(** The component an event addresses, with the count it is checked
    against. *)
Definition addressed (joy : SDL_Joystick) (e : SDL_Event) : option (Z * Z) :=
  match e with
  | SDL_JOYAXISMOTION _ axis _ => Some (axis, SDL_JoystickNumAxes joy)
  | SDL_JOYBUTTONDOWN _ button _
  | SDL_JOYBUTTONUP _ button _ => Some (button, SDL_JoystickNumButtons joy)
  | SDL_JOYHATMOTION _ hat _ => Some (hat, SDL_JoystickNumHats joy)
  | SDL_JOYBALLMOTION _ ball _ _ => Some (ball, SDL_JoystickNumBalls joy)
  | SDL_QUIT => None
  | SDL_OTHER _ => None
  end.

(** [while (SDL_PollEvent(&event)) { ... }] over the events now pending. *)
Fixpoint drain (joy : SDL_Joystick) (st : TestVars) (pending : list SDL_Event)
  : M TestVars :=
  match pending with
  | [] => ret st
  | event :: rest =>
      let* st' := dispatch joy st event in
      drain joy st' rest
  end.

(** ** Test mode: the renderer *)

(** One pass of the axes loop. *)
Definition axis_row (env : Env) (i value : Z) : trace :=
  let len := int_sub (COLS env) 20 in
  [printw "  %2d: %6d  " [AInt i; AInt value]]
    ++ print_bar (bar_pos value len) len
    ++ [addch "010"%char].

Definition axis_rows (env : Env) (joy : SDL_Joystick) (st : TestVars)
  : list trace :=
  map (fun i => axis_row env i (load (axes st) i))
      (seqZ 0 (SDL_JoystickNumAxes joy)).

Definition button_row (i state : Z) : trace :=
  [printw "  %2d: %d  %s\n"
          [AInt i; AInt state; AStr (if state =? 0 then "[ ]" else "[#]")]].

Definition button_rows (joy : SDL_Joystick) (st : TestVars) : list trace :=
  map (fun i => button_row i (load (buttons st) i))
      (seqZ 0 (SDL_JoystickNumButtons joy)).

(** [hats[i] & BITS] used as a condition. *)
Definition hat_has (h bits : Z) : bool := negb (Z.land h bits =? 0).

Definition mark (b : bool) : arg := AChar (if b then "O" else " ")%char.
Definition digit (b : bool) : arg := AChar (if b then "1" else "0")%char.

(** The thirteen [%c] arguments of the hat diagram, in the order of the
    source: the "up" digit, the top row, the "down" digit, the middle row,
    the "left" digit, the bottom row, the "right" digit. *)
Definition hat_args (env : Env) (h : Z) : list arg :=
  let UP := SDL_HAT_UP env in
  let RIGHT := SDL_HAT_RIGHT env in
  let DOWN := SDL_HAT_DOWN env in
  let LEFT := SDL_HAT_LEFT env in
  [ digit (hat_has h UP);

    mark (hat_has h UP && hat_has h LEFT);
    mark (hat_has h UP && negb (hat_has h (Z.lor LEFT RIGHT)));
    mark (hat_has h UP && hat_has h RIGHT);

    digit (hat_has h DOWN);

    mark (negb (hat_has h (Z.lor UP DOWN)) && hat_has h LEFT);
    mark (negb (hat_has h (Z.lor UP DOWN))
          && negb (hat_has h (Z.lor LEFT RIGHT)));
    mark (negb (hat_has h (Z.lor UP DOWN)) && hat_has h RIGHT);

    digit (hat_has h LEFT);

    mark (hat_has h DOWN && hat_has h LEFT);
    mark (hat_has h DOWN && negb (hat_has h (Z.lor LEFT RIGHT)));
    mark (hat_has h DOWN && hat_has h RIGHT);

    digit (hat_has h RIGHT) ].

Definition hat_format : string :=
  "  +-----+  up:    %c\n" +:+
  "  |%c %c %c|  down:  %c\n" +:+
  "  |%c %c %c|  left:  %c\n" +:+
  "  |%c %c %c|  right: %c\n" +:+
  "  +-----+\n".

Definition hat_row (env : Env) (i h : Z) : trace :=
  [printw "  %2d: value: %d\n" [AInt i; AInt h];
   printw hat_format (hat_args env h)].

Definition hat_rows (env : Env) (joy : SDL_Joystick) (st : TestVars)
  : list trace :=
  map (fun i => hat_row env i (load (hats st) i))
      (seqZ 0 (SDL_JoystickNumHats joy)).

Definition ball_row (i dx dy : Z) : trace :=
  [printw "  %2d: %6d %6d\n" [AInt i; AInt dx; AInt dy]].

Definition ball_rows (joy : SDL_Joystick) (st : TestVars) : list trace :=
  map (fun i => ball_row i (load (balls st) (2 * i + 0))
                           (load (balls st) (2 * i + 1)))
      (seqZ 0 (SDL_JoystickNumBalls joy)).

(** The body of [if (something_new)], up to and including [refresh()]:
    the fixed lines around the rows of the four loops. *)
Definition frame (env : Env) (joy_idx : Z) (joy : SDL_Joystick)
    (axis_part button_part hat_part ball_part : list trace) : trace :=
  [move 0 0;
   printw "Joystick Name:   '%s'\n" [AStr (SDL_JoystickName env joy_idx)];
   printw "Joystick Number: %d\n" [AInt joy_idx];
   printw "\n" []]
  ++ [printw "Axes %2d:\n" [AInt (SDL_JoystickNumAxes joy)]]
  ++ concat axis_part
  ++ [printw "\n" []]
  ++ [printw "Buttons %2d:\n" [AInt (SDL_JoystickNumButtons joy)]]
  ++ concat button_part
  ++ [printw "\n" []]
  ++ [printw "Hats %2d:\n" [AInt (SDL_JoystickNumHats joy)]]
  ++ concat hat_part
  ++ [printw "\n" []]
  ++ [printw "Balls %2d: " [AInt (SDL_JoystickNumBalls joy)]]
  ++ concat ball_part
  ++ [printw "\n" []; printw "\n" []; printw "Press Ctrl-c to exit\n" [];
      refresh].

Definition render (env : Env) (joy_idx : Z) (joy : SDL_Joystick)
    (st : TestVars) : trace :=
  frame env joy_idx joy
        (axis_rows env joy st) (button_rows joy st)
        (hat_rows env joy st) (ball_rows joy st).

(** ** Test mode: the polling loop *)

(** One turn of [while(!quit)]: [SDL_Delay(10)], the drain, the render when
    [something_new], and [getch()]. *)
Definition tick (env : Env) (joy_idx : Z) (joy : SDL_Joystick)
    (st : TestVars) (pending : list SDL_Event) (key : Z) : M TestVars :=
  let* st1 := drain joy st pending in
  let* st2 :=
    if something_new st1
    then emit (render env joy_idx joy st1) ;;
         ret (set_something_new false st1)
    else ret st1 in
  ret (if key =? 3 then set_quit 1 st2 else st2).

Fixpoint test_loop (env : Env) (joy_idx : Z) (joy : SDL_Joystick)
    (st : TestVars) (script : list (list SDL_Event * Z)) : M TestVars :=
  if quit st =? 0 then
    match script with
    | [] => ([], Pending)
    | (pending, key) :: script' =>
        let* st' := tick env joy_idx joy st pending key in
        test_loop env joy_idx joy st' script'
    end
  else ret st.

(** The two readings of the spec that the loop is checked against: a Quit
    event ends the drain at once, and a turn that pops no event paints
    nothing. *)
Definition stops_at_quit (joy : SDL_Joystick) (st : TestVars)
    (post : list SDL_Event) : Prop :=
  drain joy st (SDL_QUIT :: post) = drain joy st [SDL_QUIT].


Definition quit_notice : call := printf "Recieved interrupt, exiting\n" [].

Definition bad_index (arg2 : string) : M Z :=
  emit [fprintf_stderr
          "Error: JOYSTICKNUM argument must be a number, but was '%s'\n"
          [AStr arg2]] ;;
  exit 1.

Definition open_failure (joy_idx : Z) : call :=
  fprintf_stderr "Unable to open joystick %d\n" [AInt joy_idx].

Definition count_or_exit (env : Env) (count : Z) (fmt : string) : M Z :=
  if count <? 0
  then emit [fprintf_stderr fmt [AStr (SDL_GetError env)]] ;;
       exit EXIT_FAILURE
  else ret count.

(** The [--test] branch of [main]. *)
Definition test_mode (env : Env) (arg2 : string) : M unit :=
  let* joy_idx :=
    match str2int arg2 with
    | None => bad_index arg2
    | Some v => ret v
    end in
  match SDL_JoystickOpen env joy_idx with
  | None => emit [open_failure joy_idx]
  | Some joy =>
      emit [initscr; noecho; nodelay_stdscr true; curs_set 0] ;;
      let* num_axes :=
        count_or_exit env (SDL_JoystickNumAxes joy)
                      "Unable to get SDL axes count: %s\n" in
      let* num_buttons :=
        count_or_exit env (SDL_JoystickNumButtons joy)
                      "Unable to get SDL buttons count: %s\n" in
      let* num_hats :=
        count_or_exit env (SDL_JoystickNumHats joy)
                      "Unable to get SDL hats count: %s\n" in
      let* num_balls :=
        count_or_exit env (SDL_JoystickNumBalls joy)
                      "Unable to get SDL balls count: %s\n" in
      let* _ := test_loop env joy_idx joy (init_vars joy) (poll_script env) in
      emit [endwin]
  end.

(** ** Event mode, list mode, help *)

(** [void print_joystick_info(int joy_idx, SDL_Joystick* joy)] *)
Definition print_joystick_info (env : Env) (joy_idx : Z) (joy : SDL_Joystick)
  : trace :=
  [printf "Joystick Name:     '%s'\n" [AStr (SDL_JoystickName env joy_idx)];
   printf "Joystick Number:   %2d\n" [AInt joy_idx];
   printf "Number of Axes:    %2d\n" [AInt (SDL_JoystickNumAxes joy)];
   printf "Number of Buttons: %2d\n" [AInt (SDL_JoystickNumButtons joy)];
   printf "Number of Hats:    %2d\n" [AInt (SDL_JoystickNumHats joy)];
   printf "Number of Balls:   %2d\n" [AInt (SDL_JoystickNumBalls joy)];
   printf "\n" []].

(** [void print_help(const char* prg)] *)
Definition print_help (prg : string) : trace :=
  [printf "Usage: %s [OPTION]\n" [AStr prg];
   printf "List available joysticks or test a joystick.\n" [];
   printf ("This programm uses SDL for doing its test instead of using the raw\n"
           +:+ "/dev/input/jsX interface\n") [];
   printf "\n" [];
   printf "Options:\n" [];
   printf "  --help             Print this help\n" [];
   printf "  --version          Print version number and exit\n" [];
   printf "  --list             Search for available joysticks and list their properties\n" [];
   printf "  --test  JOYNUM     Display a graphical representation of the current joystick state\n" [];
   printf "  --event JOYNUM     Display the events that are received from the joystick\n" [];
   printf "\n" [];
   printf "Examples:\n" [];
   printf "  %s --list\n" [AStr prg];
   printf "  %s --test 1\n" [AStr prg]].

(** The [switch] of the event loop: what is printed, and the new [quit]. *)
Definition log_event (quit0 : Z) (event : SDL_Event) : M Z :=
  match event with
  | SDL_JOYAXISMOTION which axis value =>
      emit [printf "SDL_JOYAXISMOTION: joystick: %d axis: %d value: %d\n"
                   [AInt which; AInt axis; AInt value]] ;;
      ret quit0
  | SDL_JOYBUTTONDOWN which button state =>
      emit [printf "SDL_JOYBUTTONDOWN: joystick: %d button: %d state: %d\n"
                   [AInt which; AInt button; AInt state]] ;;
      ret quit0
  | SDL_JOYBUTTONUP which button state =>
      emit [printf "SDL_JOYBUTTONUP: joystick: %d button: %d state: %d\n"
                   [AInt which; AInt button; AInt state]] ;;
      ret quit0
  | SDL_JOYHATMOTION which hat value =>
      emit [printf "SDL_JOYHATMOTION: joystick: %d hat: %d value: %d\n"
                   [AInt which; AInt hat; AInt value]] ;;
      ret quit0
  | SDL_JOYBALLMOTION which ball xrel yrel =>
      emit [printf "SDL_JOYBALLMOTION: joystick: %d ball: %d x: %d y: %d\n"
                   [AInt which; AInt ball; AInt xrel; AInt yrel]] ;;
      ret quit0
  | SDL_QUIT =>
      emit [printf "Recieved interrupt, exiting\n" []] ;;
      ret 1
  | SDL_OTHER ty =>
      emit [fprintf_stderr "Error: Unhandled event type: %d\n" [AInt ty]] ;;
      ret quit0
  end.

(** [while(!quit && SDL_WaitEvent(&event))] *)
Fixpoint event_loop (quit0 : Z) (script : list (option SDL_Event)) : M unit :=
  if quit0 =? 0 then
    match script with
    | [] => ([], Pending)
    | None :: _ => ret tt
    | Some event :: script' =>
        let* quit1 := log_event quit0 event in
        event_loop quit1 script'
    end
  else ret tt.

(** The [--event] branch of [main]. *)
Definition event_mode (env : Env) (arg2 : string) : M unit :=
  let* joy_idx :=
    match str2int arg2 with
    | None => bad_index arg2
    | Some v => ret v
    end in
  match SDL_JoystickOpen env joy_idx with
  | None => emit [open_failure joy_idx]
  | Some joy =>
      emit (print_joystick_info env joy_idx joy) ;;
      emit [printf "Entering joystick test loop, press Ctrl-c to exit\n" []] ;;
      event_loop 0 (wait_script env)
  end ;;
  emit [fprintf_stderr "Unable to init SDL: %s\n" [AStr (SDL_GetError env)]].

(** The [--list] branch of [main]. *)
Definition list_mode (env : Env) : M unit :=
  let num_joysticks := SDL_NumJoysticks env in
  if num_joysticks =? 0
  then emit [printf "No joysticks were found\n" []]
  else
    emit [printf "Found %d joystick(s)\n\n" [AInt num_joysticks]] ;;
    emit (flat_map
            (fun joy_idx =>
               match SDL_JoystickOpen env joy_idx with
               | None => [open_failure joy_idx]
               | Some joy => print_joystick_info env joy_idx joy
               end)
            (seqZ 0 num_joysticks)).

(** ** [main] *)

Definition unknown_arguments (prg : string) : trace :=
  [fprintf_stderr "%s: unknown arguments\n" [AStr prg];
   fprintf_stderr "Try '%s --help' for more informations\n" [AStr prg]].

(** [strcmp(a, b) == 0] *)
Definition streq (a b : string) : bool := String.eqb a b.

(** [int main(int argc, char** argv)], with [argc = length argv].  The
    [_WIN32] block is left out, and so are [atexit(SDL_Quit)],
    [SDL_Delay], [SDL_JoystickClose] and [free], which print nothing. *)
Definition main (env : Env) (argv : list string) : M Z :=
  let argc := Z.of_nat (length argv) in
  let arg i := nth i argv "" in
  (if argc =? 1
   then emit (print_help (arg 0%nat)) ;; exit 1
   else ret tt) ;;
  if negb (SDL_Init_ok env)
  then
    emit [fprintf_stderr "Unable to init SDL: %s\n" [AStr (SDL_GetError env)]] ;;
    exit 1
  else
    (if (argc =? 2) && (streq (arg 1%nat) "--help" || streq (arg 1%nat) "-h")
     then emit (print_help (arg 0%nat))
     else ret tt) ;;
    (if (argc =? 2) && streq (arg 1%nat) "--version"
     then
       emit [printf ("sdl-jstest " +:+ SDL_JSTEST_VERSION env +:+ "\n") []] ;;
       exit EXIT_SUCCESS
     else if (argc =? 2)
             && (streq (arg 1%nat) "--list" || streq (arg 1%nat) "-l")
     then list_mode env
     else if (argc =? 3)
             && (streq (arg 1%nat) "--test" || streq (arg 1%nat) "-t")
     then test_mode env (arg 2%nat)
     else if (argc =? 3)
             && (streq (arg 1%nat) "--event" || streq (arg 1%nat) "-e")
     then event_mode env (arg 2%nat)
     else emit (unknown_arguments (arg 0%nat))) ;;
    ret EXIT_SUCCESS.

(** How the process ends. *)
Inductive status : Type :=
| Exited (code : Z)
| Aborted
| Waiting.

Definition program (env : Env) (argv : list string) : trace * status :=
  match main env argv with
  | (t, Ret code) => (t, Exited code)
  | (t, Exit code) => (t, Exited code)
  | (t, Abort) => (t, Aborted)
  | (t, Pending) => (t, Waiting)
  end.

(** The modes of the interface table: help, version, list, test, event. *)
Definition recognized (args : list string) : bool :=
  match args with
  | [a] =>
      streq a "--help" || streq a "-h" || streq a "--version"
      || streq a "--list" || streq a "-l"
  | [a; _] => streq a "--test" || streq a "-t" || streq a "--event" || streq a "-e"
  | _ => false
  end.

(** The two flags of each mode that takes a joystick number. *)
Definition is_test_flag (a : string) : bool := streq a "--test" || streq a "-t".
Definition is_event_flag (a : string) : bool :=
  streq a "--event" || streq a "-e".

(** The number argument is either not a number or names a joystick that
    cannot be opened. *)
Definition cannot_open (env : Env) (arg2 : string) : Prop :=
  match str2int arg2 with
  | Some joy_idx => SDL_JoystickOpen env joy_idx = None
  | None => True
  end.

(** The spec's exit code for a failure, as the interface table gives it. *)
Definition exits_nonzero (r : trace * status) : Prop :=
  exists code, snd r = Exited code /\ code <> 0.

Definition is_stderr (c : call) : bool :=
  match c with
  | fprintf_stderr _ _ => true
  | _ => false
  end.

(** A sample environment: SDL's values of the hat bits, one joystick with
    two axes, two buttons, a hat and a ball, an 80-column terminal. *)
Definition sample_joystick : SDL_Joystick :=
  {| SDL_JoystickNumAxes := 2; SDL_JoystickNumButtons := 2;
     SDL_JoystickNumHats := 1; SDL_JoystickNumBalls := 1 |}.

Definition sample_env : Env :=
  {| SDL_HAT_UP := 1; SDL_HAT_RIGHT := 2; SDL_HAT_DOWN := 4; SDL_HAT_LEFT := 8;
     SDL_JSTEST_VERSION := "0.2.2";
     SDL_Init_ok := true;
     SDL_GetError := "";
     SDL_NumJoysticks := 1;
     SDL_JoystickOpen := fun i => if i =? 0 then Some sample_joystick else None;
     SDL_JoystickName := fun _ => "pad";
     COLS := 80;
     poll_script := [];
     wait_script := [] |}.

(** ** Observations on traces and batches *)

(** The cells of a bar that carry the mark, and the marked cells of a hat
    diagram. *)
Definition is_hash (c : call) : bool :=
  match c with
  | addch ch => Ascii.eqb ch "#"
  | _ => false
  end.

Definition is_O (a : arg) : bool :=
  match a with
  | AChar ch => Ascii.eqb ch "O"
  | _ => false
  end.

Definition bar_marks (t : trace) : nat := length (List.filter is_hash t).
Definition hat_marks (args : list arg) : nat := length (List.filter is_O args).

(** The event passes the [assert] of its case, if it has one. *)
Definition in_range (joy : SDL_Joystick) (e : SDL_Event) : bool :=
  match addressed joy e with
  | Some (idx, count) => idx <? count
  | None => true
  end.

(** What the test-mode [switch] prints for an event. *)
Definition event_output (e : SDL_Event) : trace :=
  match e with
  | SDL_QUIT => [quit_notice]
  | SDL_OTHER ty =>
      [fprintf_stderr "Error: Unhandled event type: %d\n" [AInt ty]]
  | _ => []
  end.

Definition is_quit (e : SDL_Event) : bool :=
  match e with
  | SDL_QUIT => true
  | _ => false
  end.

(** The four curses calls made before the loop of test mode. *)
Definition curses_setup : trace :=
  [initscr; noecho; nodelay_stdscr true; curs_set 0].

Definition init_failure (env : Env) : call :=
  fprintf_stderr "Unable to init SDL: %s\n" [AStr (SDL_GetError env)].

Definition is_list_flag (a : string) : bool := streq a "--list" || streq a "-l".

(** The exit codes the program uses: a computation that calls [exit] does
    so with 0 or 1, and one that returns a code returns 0 or 1. *)
Definition exit_01 {A} (m : M A) : Prop :=
  match snd m with
  | Exit code => code = 0 \/ code = 1
  | _ => True
  end.

Definition final_01 (m : M Z) : Prop :=
  match snd m with
  | Exit code => code = 0 \/ code = 1
  | Ret code => code = 0 \/ code = 1
  | _ => True
  end.

(** The computation neither exits nor aborts. *)
Definition returns_or_waits {A} (m : M A) : Prop :=
  match snd m with
  | Ret _ => True
  | Pending => True
  | _ => False
  end.

(** The computation does not call [exit]. *)
Definition never_exits {A} (m : M A) : Prop :=
  match snd m with
  | Exit _ => False
  | _ => True
  end.

(** ** What is expected on the streams *)

(** The help as it must appear on the standard output, written out apart
    from [print_help]. *)
Definition help_text (prg : string) : trace :=
  [printf "Usage: %s [OPTION]\n" [AStr prg];
   printf "List available joysticks or test a joystick.\n" [];
   printf "This programm uses SDL for doing its test instead of using the raw\n/dev/input/jsX interface\n" [];
   printf "\n" [];
   printf "Options:\n" [];
   printf "  --help             Print this help\n" [];
   printf "  --version          Print version number and exit\n" [];
   printf "  --list             Search for available joysticks and list their properties\n" [];
   printf "  --test  JOYNUM     Display a graphical representation of the current joystick state\n" [];
   printf "  --event JOYNUM     Display the events that are received from the joystick\n" [];
   printf "\n" [];
   printf "Examples:\n" [];
   printf "  %s --list\n" [AStr prg];
   printf "  %s --test 1\n" [AStr prg]].

(** The seven lines that describe a joystick, written out apart from
    [print_joystick_info]. *)
Definition described (name : string) (joy_idx : Z) (joy : SDL_Joystick)
  : trace :=
  [printf "Joystick Name:     '%s'\n" [AStr name];
   printf "Joystick Number:   %2d\n" [AInt joy_idx];
   printf "Number of Axes:    %2d\n" [AInt (SDL_JoystickNumAxes joy)];
   printf "Number of Buttons: %2d\n" [AInt (SDL_JoystickNumButtons joy)];
   printf "Number of Hats:    %2d\n" [AInt (SDL_JoystickNumHats joy)];
   printf "Number of Balls:   %2d\n" [AInt (SDL_JoystickNumBalls joy)];
   printf "\n" []].

Definition is_endwin (c : call) : bool :=
  match c with
  | endwin => true
  | _ => false
  end.

(** [endwin] is not called in the trace. *)
Definition no_endwin (t : trace) : Prop :=
  forallb (fun c => negb (is_endwin c)) t = true.

(** Further sample environments: one where [SDL_Init] fails; one whose
    scripts deliver events and end with a Quit; one whose poll script
    delivers an event for an axis that does not exist; one with three
    joysticks of which the middle one cannot be opened. *)
Definition headless_env : Env :=
  {| SDL_HAT_UP := 1; SDL_HAT_RIGHT := 2; SDL_HAT_DOWN := 4; SDL_HAT_LEFT := 8;
     SDL_JSTEST_VERSION := "0.2.2";
     SDL_Init_ok := false;
     SDL_GetError := "No available video device";
     SDL_NumJoysticks := 0;
     SDL_JoystickOpen := fun _ => None;
     SDL_JoystickName := fun _ => "";
     COLS := 80;
     poll_script := [];
     wait_script := [] |}.

Definition scripted_env : Env :=
  {| SDL_HAT_UP := 1; SDL_HAT_RIGHT := 2; SDL_HAT_DOWN := 4; SDL_HAT_LEFT := 8;
     SDL_JSTEST_VERSION := "0.2.2";
     SDL_Init_ok := true;
     SDL_GetError := "";
     SDL_NumJoysticks := 1;
     SDL_JoystickOpen := fun i => if i =? 0 then Some sample_joystick else None;
     SDL_JoystickName := fun _ => "pad";
     COLS := 30;
     poll_script := [([SDL_JOYAXISMOTION 0 1 9], -1); ([SDL_QUIT], -1)];
     wait_script := [Some (SDL_JOYAXISMOTION 0 0 5); Some SDL_QUIT;
                     Some (SDL_OTHER 1)] |}.

Definition faulty_env : Env :=
  {| SDL_HAT_UP := 1; SDL_HAT_RIGHT := 2; SDL_HAT_DOWN := 4; SDL_HAT_LEFT := 8;
     SDL_JSTEST_VERSION := "0.2.2";
     SDL_Init_ok := true;
     SDL_GetError := "";
     SDL_NumJoysticks := 1;
     SDL_JoystickOpen := fun i => if i =? 0 then Some sample_joystick else None;
     SDL_JoystickName := fun _ => "pad";
     COLS := 30;
     poll_script := [([SDL_JOYBUTTONDOWN 0 1 1], -1);
                     ([SDL_JOYAXISMOTION 0 5 9], -1)];
     wait_script := [] |}.

Definition three_env : Env :=
  {| SDL_HAT_UP := 1; SDL_HAT_RIGHT := 2; SDL_HAT_DOWN := 4; SDL_HAT_LEFT := 8;
     SDL_JSTEST_VERSION := "0.2.2";
     SDL_Init_ok := true;
     SDL_GetError := "";
     SDL_NumJoysticks := 3;
     SDL_JoystickOpen := fun i => if i =? 1 then None else Some sample_joystick;
     SDL_JoystickName := fun i => if i =? 0 then "pad" else "wheel";
     COLS := 80;
     poll_script := [];
     wait_script := [] |}.

(** * Properties *)

(** ** Machine integers and the axis bar *)

Lemma int_wrap_small (z : Z) : in_int z -> int_wrap z = z.
Proof.
  unfold in_int, INT_MIN, INT_MAX, int_wrap. intros Hz.
  rewrite Z.mod_small; lia.
Qed.

(** For a width up to 32770 no operation of the position formula leaves
    [int], and the formula is the mathematical one. *)
Lemma bar_pos_exact (v w : Z) :
  is_sint16 v -> 1 < w <= 32770 ->
  bar_pos v w = Z.quot ((v + 32767) * (w - 1)) 65534.
Proof.
  unfold is_sint16. intros Hv Hw.
  unfold bar_pos, int_div, int_mul, int_add, int_sub.
  rewrite (int_wrap_small (v + 32767))
    by (unfold in_int, INT_MIN, INT_MAX; lia).
  rewrite (int_wrap_small (w - 1))
    by (unfold in_int, INT_MIN, INT_MAX; lia).
  assert (Hprod : -32769 <= (v + 32767) * (w - 1) <= 2147483646) by nia.
  rewrite (int_wrap_small ((v + 32767) * (w - 1)))
    by (unfold in_int, INT_MIN, INT_MAX; lia).
  apply int_wrap_small. unfold in_int, INT_MIN, INT_MAX.
  destruct (Z.le_gt_cases 0 ((v + 32767) * (w - 1))) as [Hpos | Hneg].
  - rewrite Z.quot_div_nonneg by lia.
    split.
    + transitivity 0; [lia | apply Z.div_pos; lia].
    + transitivity ((v + 32767) * (w - 1)); [| lia].
      apply Z.div_le_upper_bound; nia.
  - assert (Hq : Z.quot ((v + 32767) * (w - 1)) 65534 = 0).
    { replace ((v + 32767) * (w - 1)) with (- (- ((v + 32767) * (w - 1))))
        by lia.
      rewrite Z.quot_opp_l by lia. rewrite Z.quot_small; lia. }
    rewrite Hq. lia.
Qed.

Lemma length_print_bar (pos len : Z) :
  length (print_bar pos len) = S (S (Z.to_nat len)).
Proof.
  unfold print_bar. rewrite !length_app, length_map, length_seqZ. simpl. lia.
Qed.

(** A position inside the bar puts one [#] there and blanks elsewhere. *)
Lemma print_bar_cell (pos len i : Z) :
  0 <= i < len ->
  print_bar pos len !! S (Z.to_nat i)
  = Some (if i =? pos then addch "#"%char else addch " "%char).
Proof.
  intros Hi. unfold print_bar. simpl.
  rewrite lookup_app_l by (rewrite length_map, length_seqZ; lia).
  rewrite list_lookup_fmap.
  rewrite (lookup_seqZ_lt 0 len (Z.to_nat i)) by lia.
  rewrite Z2Nat.id by lia. reflexivity.
Qed.

(** C1, as stated, fails: with a bar of 65535 cells the lowest axis value
    is placed at cell -1, left of the bar. *)
Lemma bar_pos_wide_bar :
  is_sint16 (-32768) /\ 1 < 65535 /\
  bar_pos (-32768) 65535 = -1 /\
  ~ (0 <= bar_pos (-32768) 65535 < 65535).
Proof.
  unfold is_sint16. repeat split; try lia; try reflexivity.
  vm_compute. intros [H _]. apply H. reflexivity.
Qed.

(** Beyond 32770 cells the product leaves [int] for the highest value. *)
Lemma bar_pos_overflow : bar_pos 32767 32771 = -32768.
Proof. reflexivity. Qed.

(** C1 (amended): for every axis value in [-32768, 32767] and every bar
    width [1 < w <= 32770], the fill position
    [(v + 32767) * (w - 1) / 65534] lies in [0, w); the lowest value gives
    cell 0 and the highest gives cell [w - 1]. *)
Theorem bar_pos_in_bar (v w : Z) :
  is_sint16 v -> 1 < w <= 32770 ->
  0 <= bar_pos v w < w /\
  bar_pos (-32768) w = 0 /\
  bar_pos 32767 w = w - 1.
Proof.
  intros Hv Hw. unfold is_sint16 in Hv.
  repeat split.
  - rewrite bar_pos_exact by (unfold is_sint16; lia).
    destruct (Z.le_gt_cases 0 (v + 32767)) as [Hpos | Hneg].
    + rewrite Z.quot_div_nonneg by nia. apply Z.div_pos; nia.
    + replace v with (-32768) by lia.
      replace ((-32768 + 32767) * (w - 1)) with (- (w - 1)) by lia.
      rewrite Z.quot_opp_l by lia. rewrite Z.quot_small; lia.
  - rewrite bar_pos_exact by (unfold is_sint16; lia).
    destruct (Z.le_gt_cases 0 (v + 32767)) as [Hpos | Hneg].
    + rewrite Z.quot_div_nonneg by nia.
      apply Z.div_lt_upper_bound; nia.
    + replace v with (-32768) by lia.
      replace ((-32768 + 32767) * (w - 1)) with (- (w - 1)) by lia.
      rewrite Z.quot_opp_l by lia. rewrite Z.quot_small; lia.
  - rewrite bar_pos_exact by (unfold is_sint16; lia).
    replace ((-32768 + 32767) * (w - 1)) with (- (w - 1)) by lia.
    rewrite Z.quot_opp_l by lia. rewrite Z.quot_small; lia.
  - rewrite bar_pos_exact by (unfold is_sint16; lia).
    replace ((32767 + 32767) * (w - 1)) with ((w - 1) * 65534) by lia.
    apply Z.quot_mul. lia.
Qed.

Lemma bar_pos_in_bar_witness :
  0 <= bar_pos 0 60 < 60 /\ bar_pos (-32768) 60 = 0 /\ bar_pos 32767 60 = 59.
Proof.
  apply (bar_pos_in_bar 0 60); unfold is_sint16; lia.
Defined.

(** ** [str2int] *)

Lemma digit_not_space (c : ascii) (d : Z) :
  digit_val c = Some d -> isspace c = false.
Proof.
  unfold digit_val, isspace.
  destruct ((48 <=? Z.of_N (N_of_ascii c)) && (Z.of_N (N_of_ascii c) <=? 57))
    eqn:E; [| discriminate].
  intros _. apply andb_true_iff in E.
  apply orb_false_iff. split; [| apply andb_false_iff]; lia.
Qed.

Lemma digit_not_sign (c : ascii) (d : Z) :
  digit_val c = Some d -> Ascii.eqb c "-" = false /\ Ascii.eqb c "+" = false.
Proof.
  intros Hd. split.
  - destruct (Ascii.eqb_spec c "-"); [subst; discriminate | reflexivity].
  - destruct (Ascii.eqb_spec c "+"); [subst; discriminate | reflexivity].
Qed.

Lemma append_empty_r (s : string) : s +:+ "" = s.
Proof.
  induction s as [| c s IH]; [reflexivity |].
  change (String c (s +:+ "") = String c s). f_equal. exact IH.
Qed.

Lemma skip_space_split (s : string) :
  exists ws, s = ws +:+ skip_space s /\
             forallb isspace (list_ascii_of_string ws) = true.
Proof.
  induction s as [| c r [ws [Heq Hws]]]; simpl.
  - exists "". split; reflexivity.
  - destruct (isspace c) eqn:Hc.
    + exists (String c ws). simpl. rewrite Hc, Hws.
      split; [change (String c r = String c (ws +:+ skip_space r));
              f_equal; exact Heq | reflexivity].
    + exists "". split; reflexivity.
Qed.

(** Blanks in front of a text that does not start with one are skipped. *)
Lemma skip_space_app (ws : string) (c : ascii) (r : string) :
  forallb isspace (list_ascii_of_string ws) = true ->
  isspace c = false ->
  skip_space (ws +:+ String c r) = String c r.
Proof.
  intros Hws Hc. induction ws as [| w ws IH]; simpl in *.
  - rewrite Hc. reflexivity.
  - apply andb_true_iff in Hws as [Hw Hws]. rewrite Hw. auto.
Qed.

Lemma scan_digits_sound (s : string) :
  forall a r rest,
    scan_digits (Some a) s = (r, rest) ->
    exists ds n, s = ds +:+ rest /\ r = Some n /\
                 decimal_value a (list_ascii_of_string ds) = Some n.
Proof.
  induction s as [| c s IH]; simpl; intros a r rest H.
  - injection H as <- <-. exists "", a. repeat split.
  - destruct (digit_val c) as [d |] eqn:Hc.
    + apply IH in H as (ds & n & -> & -> & Hn).
      exists (String c ds), n. simpl. rewrite Hc. repeat split. exact Hn.
    + injection H as <- <-. exists "", a. repeat split.
Qed.

Lemma scan_digits_complete (ds : list ascii) :
  forall a n,
    decimal_value a ds = Some n ->
    scan_digits (Some a) (string_of_list_ascii ds) = (Some n, "").
Proof.
  induction ds as [| c ds IH]; simpl; intros a n H.
  - congruence.
  - destruct (digit_val c) as [d |]; [| discriminate].
    simpl. apply IH. exact H.
Qed.

Lemma scan_sign_split (s : string) (neg : bool) (body : string) :
  scan_sign s = (neg, body) ->
  exists sign, s = sign +:+ body /\
               forall n, sign_value sign n = Some (if neg then - n else n).
Proof.
  unfold scan_sign. destruct s as [| c r].
  - intros [= <- <-]. exists "". split; reflexivity.
  - destruct (Ascii.eqb_spec c "-") as [-> | Hm].
    + intros [= <- <-]. exists "-". split; reflexivity.
    + destruct (Ascii.eqb_spec c "+") as [-> | Hp].
      * intros [= <- <-]. exists "+". split; reflexivity.
      * intros [= <- <-]. exists "". split; reflexivity.
Qed.

Lemma sign_value_cases (sign : string) (n v : Z) :
  sign_value sign n = Some v ->
  (sign = "" /\ v = n) \/ (sign = "+" /\ v = n) \/ (sign = "-" /\ v = - n).
Proof.
  unfold sign_value.
  destruct (String.eqb_spec sign "") as [-> | _]; [intros [= <-]; auto |].
  destruct (String.eqb_spec sign "+") as [-> | _]; [intros [= <-]; auto |].
  destruct (String.eqb_spec sign "-") as [-> | _]; [intros [= <-]; auto |].
  discriminate.
Qed.

(** [strtol] on a base-10 integer text: the whole text is consumed. *)
Lemma strtol10_decimal_text (s : string) (v : Z) :
  decimal_text s v -> LONG_MIN <= v <= LONG_MAX -> strtol10 s = (v, "", 0).
Proof.
  intros (ws & sign & ds & n & -> & Hws & Hds & Hn & Hv) Hrange.
  destruct ds as [| c ds]; [congruence |]. clear Hds.
  simpl in Hn. destruct (digit_val c) as [d |] eqn:Hc; [| discriminate].
  destruct (digit_not_sign c d Hc) as [Hm Hp].
  pose proof (digit_not_space c d Hc) as Hsp.
  apply scan_digits_complete in Hn.
  rewrite string_of_list_ascii_of_string in Hn.
  unfold strtol10.
  apply sign_value_cases in Hv as [[-> ->] | [[-> ->] | [-> ->]]].
  - change ("" +:+ String c ds) with (String c ds).
    rewrite (skip_space_app ws c ds Hws Hsp).
    cbn [scan_sign]. rewrite Hm, Hp. cbn [scan_digits default]. rewrite Hc, Hn.
    destruct (Z.ltb_spec n LONG_MIN); [lia |].
    destruct (Z.ltb_spec LONG_MAX n); [lia | reflexivity].
  - change ("+" +:+ String c ds) with (String "+" (String c ds)).
    rewrite (skip_space_app ws "+" (String c ds) Hws eq_refl).
    cbn [scan_sign Ascii.eqb Bool.eqb]. cbn [scan_digits default].
    rewrite Hc, Hn.
    destruct (Z.ltb_spec n LONG_MIN); [lia |].
    destruct (Z.ltb_spec LONG_MAX n); [lia | reflexivity].
  - change ("-" +:+ String c ds) with (String "-" (String c ds)).
    rewrite (skip_space_app ws "-" (String c ds) Hws eq_refl).
    cbn [scan_sign Ascii.eqb Bool.eqb]. cbn [scan_digits default].
    rewrite Hc, Hn.
    destruct (Z.ltb_spec (- n) LONG_MIN); [lia |].
    destruct (Z.ltb_spec LONG_MAX (- n)); [lia | reflexivity].
Qed.

(** What [strtol] returns when it leaves [errno] alone and [endptr] at the
    end of the text. *)
Lemma strtol10_consumed (s : string) (v : Z) :
  strtol10 s = (v, "", 0) -> (s = "" /\ v = 0) \/ decimal_text s v.
Proof.
  unfold strtol10.
  destruct (scan_sign (skip_space s)) as [neg body] eqn:Hsign.
  destruct (scan_digits None body) as [[n |] rest] eqn:Hscan.
  - intros H. right.
    assert (Hv : v = (if neg then - n else n) /\ rest = "").
    { destruct (_ <? LONG_MIN); [discriminate H |].
      destruct (LONG_MAX <? _); [discriminate H |].
      injection H as <- <-. split; reflexivity. }
    destruct Hv as [-> ->]. clear H.
    destruct (skip_space_split s) as (ws & Hs & Hws).
    apply scan_sign_split in Hsign as (sign & Hbody & Hsv).
    destruct body as [| c body]; [discriminate Hscan |].
    simpl in Hscan. destruct (digit_val c) as [d |] eqn:Hc; [| discriminate].
    apply scan_digits_sound in Hscan as (ds & m & Hds & [= <-] & Hm).
    exists ws, sign, (String c ds), n. repeat split.
    + rewrite Hs at 1. rewrite Hbody, Hds, append_empty_r. reflexivity.
    + exact Hws.
    + discriminate.
    + simpl. rewrite Hc. exact Hm.
    + apply Hsv.
  - intros [= <- <-]. left. split; reflexivity.
Qed.

(** The texts [str2int] accepts: the base-10 integers within [int], and the
    empty text, read as 0. *)
Lemma str2int_accepts (s : string) (v : Z) :
  str2int s = Some v <->
  (s = "" /\ v = 0) \/ (decimal_text s v /\ in_int v).
Proof.
  unfold str2int. split.
  - destruct (strtol10 s) as [[tmp endptr] errno] eqn:Hs.
    destruct (Z.eqb_spec errno 0) as [-> |]; [simpl | discriminate].
    destruct (String.eqb_spec endptr "") as [-> |]; [simpl | discriminate].
    destruct (Z.ltb_spec tmp INT_MIN); [discriminate |].
    destruct (Z.ltb_spec INT_MAX tmp); [discriminate |]. simpl.
    rewrite int_wrap_small by (split; assumption). intros [= <-].
    apply strtol10_consumed in Hs as [? | ?]; [left | right]; auto.
    split; [assumption | split; assumption].
  - intros [[-> ->] | [Htext Hint]]; [reflexivity |].
    rewrite (strtol10_decimal_text s v Htext)
      by (unfold in_int, INT_MIN, INT_MAX, LONG_MIN, LONG_MAX in *; lia).
    simpl. destruct Hint as [Hlo Hhi].
    destruct (Z.ltb_spec v INT_MIN); [lia |].
    destruct (Z.ltb_spec INT_MAX v); [lia |]. simpl.
    rewrite int_wrap_small by (split; assumption). reflexivity.
Qed.

(** The six texts of the claim. *)
Lemma str2int_examples :
  str2int "abc" = None /\
  str2int "99999999999999" = None /\
  str2int "12x" = None /\
  str2int "0" = Some 0 /\
  str2int "-1" = Some (-1) /\
  str2int "42" = Some 42.
Proof. repeat split; reflexivity. Qed.

Lemma empty_not_decimal (v : Z) : ~ decimal_text "" v.
Proof.
  intros (ws & sign & ds & n & Heq & _ & Hds & _).
  destruct ws; [| discriminate]. destruct sign; [| discriminate].
  destruct ds; [congruence | discriminate].
Qed.

(** C6: the parser rejects "abc", "99999999999999" and "12x" and accepts
    "0", "-1" and "42" with their values, and acceptance requires a base-10
    integer within [int].  The code breaks the last part at the empty text:
    [strtol] performs no conversion, returns 0 with [endptr] at the
    terminating NUL and leaves [errno] alone, so none of the three checks
    of [str2int] fires and the empty text is accepted as index 0. *)
Theorem str2int_empty_text :
  str2int "" = Some 0 /\ (forall v, ~ decimal_text "" v).
Proof. split; [reflexivity | exact empty_not_decimal]. Qed.

(** ** The hat diagram *)










(** ** The control monad *)

Lemma bind_ret_l {A B} (a : A) (f : A -> M B) : bind (ret a) f = f a.
Proof. unfold bind, ret. destruct (f a). reflexivity. Qed.

Lemma bind_assoc {A B C} (m : M A) (f : A -> M B) (g : B -> M C) :
  bind (bind m f) g = bind m (fun a => bind (f a) g).
Proof.
  destruct m as [t [a | code | |]]; simpl; try reflexivity.
  destruct (f a) as [t1 [b | code | |]]; simpl; try reflexivity.
  destruct (g b) as [t2 r]. rewrite app_assoc. reflexivity.
Qed.

(** A sequence that runs to its end ran both parts to their ends. *)
Lemma bind_Ret_inv {A B} (m : M A) (f : A -> M B) (t : trace) (b : B) :
  bind m f = (t, Ret b) ->
  exists t1 a t2, m = (t1, Ret a) /\ f a = (t2, Ret b) /\ t = t1 ++ t2.
Proof.
  destruct m as [t1 [a | code | |]]; simpl; try discriminate.
  destruct (f a) as [t2 r] eqn:Hf. intros [= <- ->].
  exists t1, a, t2. repeat split. exact Hf.
Qed.

(** ** The dispatcher *)

Lemma drain_app (joy : SDL_Joystick) (pre post : list SDL_Event) :
  forall st,
    drain joy st (pre ++ post)
    = bind (drain joy st pre) (fun st1 => drain joy st1 post).
Proof.
  induction pre as [| e pre IH]; intros st.
  - simpl. destruct (drain joy st post). reflexivity.
  - simpl. rewrite bind_assoc.
    destruct (dispatch joy st e) as [t [st' | code | |]]; simpl;
      try reflexivity.
    rewrite IH. reflexivity.
Qed.

Lemma dispatch_quit_sticky (joy : SDL_Joystick) (st : TestVars)
    (e : SDL_Event) (t : trace) (st' : TestVars) :
  dispatch joy st e = (t, Ret st') -> quit st <> 0 -> quit st' <> 0.
Proof.
  destruct e; simpl; unfold assert;
    repeat match goal with
           | |- context [?a <? ?b] => destruct (a <? b)
           end; simpl; try discriminate; intros [= <- <-]; simpl; auto; lia.
Qed.

Lemma dispatch_something_new (joy : SDL_Joystick) (st : TestVars)
    (e : SDL_Event) (t : trace) (st' : TestVars) :
  dispatch joy st e = (t, Ret st') -> something_new st' = true.
Proof.
  destruct e; simpl; unfold assert;
    repeat match goal with
           | |- context [?a <? ?b] => destruct (a <? b)
           end; simpl; try discriminate; intros [= <- <-]; reflexivity.
Qed.

Lemma drain_quit_sticky (joy : SDL_Joystick) (pending : list SDL_Event) :
  forall st t st',
    drain joy st pending = (t, Ret st') -> quit st <> 0 -> quit st' <> 0.
Proof.
  induction pending as [| e pending IH]; simpl; intros st t st' H Hq.
  - injection H as <- <-. exact Hq.
  - apply bind_Ret_inv in H as (t1 & st1 & t2 & H1 & H2 & ->).
    eapply IH; [exact H2 |]. eapply dispatch_quit_sticky; eauto.
Qed.

(** Popping any event sets the flag, and it stays set until the render. *)
Lemma drain_something_new (joy : SDL_Joystick) (pending : list SDL_Event) :
  forall st t st',
    drain joy st pending = (t, Ret st') ->
    something_new st' = something_new st || negb (bool_decide (pending = [])).
Proof.
  induction pending as [| e pending IH]; simpl; intros st t st' H.
  - injection H as <- <-. rewrite orb_false_r. reflexivity.
  - apply bind_Ret_inv in H as (t1 & st1 & t2 & H1 & H2 & ->).
    rewrite (IH _ _ _ H2), (dispatch_something_new _ _ _ _ _ H1).
    rewrite orb_true_r. reflexivity.
Qed.

(** A failed assertion in the batch ends the whole loop: nothing after it
    runs, in this turn or later. *)
Lemma test_loop_abort (env : Env) (joy_idx : Z) (joy : SDL_Joystick)
    (st st1 : TestVars) (pre post : list SDL_Event) (e : SDL_Event)
    (key : Z) (script : list (list SDL_Event * Z)) (t1 : trace) :
  quit st = 0 ->
  drain joy st pre = (t1, Ret st1) ->
  dispatch joy st1 e = ([], Abort) ->
  test_loop env joy_idx joy st ((pre ++ e :: post, key) :: script)
  = (t1, Abort).
Proof.
  intros Hq Hpre He. simpl. rewrite Hq. simpl.
  unfold tick. rewrite drain_app, Hpre. simpl. rewrite He. simpl.
  rewrite app_nil_r. reflexivity.
Qed.

(** With the C types of SDL's event structs, the index of an applied event
    is a position of the array it is stored in. *)
Lemma applied_index_in_range (joy : SDL_Joystick) (st : TestVars)
    (e : SDL_Event) (idx count : Z) (t : trace) (st' : TestVars) :
  wf_event e ->
  addressed joy e = Some (idx, count) ->
  dispatch joy st e = (t, Ret st') ->
  0 <= idx < count.
Proof.
  unfold is_uint8.
  destruct e; simpl; intros Hwf Ha; try discriminate; injection Ha as <- <-;
    unfold assert;
    match goal with
    | |- context [?a <? ?b] => destruct (Z.ltb_spec a b)
    end; simpl; try discriminate; intros _; unfold is_uint8 in Hwf; lia.
Qed.

(** C7: an event that addresses a component is applied only when its index
    is below the declared count of that kind; with an index at or beyond
    the count the dispatcher aborts on the assertion, and no state comes
    out of it. *)
Theorem dispatch_index_guard (joy : SDL_Joystick) (st : TestVars)
    (e : SDL_Event) (idx count : Z) :
  addressed joy e = Some (idx, count) ->
  (exists st', dispatch joy st e
               = ([], if idx <? count then Ret st' else Abort)) /\
  (forall t st', dispatch joy st e = (t, Ret st') -> idx < count) /\
  (count <= idx -> dispatch joy st e = ([], Abort)).
Proof.
  intros Ha.
  assert (Hd : exists st', dispatch joy st e
                           = ([], if idx <? count then Ret st' else Abort)).
  { destruct e; simpl in Ha; try discriminate; injection Ha as <- <-;
      simpl; unfold assert; destruct (_ <? _); simpl; eauto. }
  destruct Hd as [st1 Hd]. split; [eauto | split].
  - intros t st' H. rewrite Hd in H.
    destruct (Z.ltb_spec idx count); [assumption | discriminate].
  - intros Hle. rewrite Hd.
    destruct (Z.ltb_spec idx count); [lia | reflexivity].
Qed.

Lemma dispatch_index_guard_witness :
  dispatch sample_joystick (init_vars sample_joystick)
           (SDL_JOYAXISMOTION 0 2 100) = ([], Abort).
Proof.
  apply (dispatch_index_guard sample_joystick (init_vars sample_joystick)
           (SDL_JOYAXISMOTION 0 2 100) 2 2 eq_refl).
  simpl. lia.
Defined.

(** ** Applying an axis event *)

Lemma load_store_same (a : list Z) (i v : Z) :
  0 <= i < Z.of_nat (length a) -> load (store a i v) i = v.
Proof.
  intros Hi. unfold load, store.
  rewrite list_lookup_insert_eq by lia. reflexivity.
Qed.

Lemma load_store_other (a : list Z) (i j v : Z) :
  0 <= i -> 0 <= j -> i <> j -> load (store a i v) j = load a j.
Proof.
  intros Hi Hj Hne. unfold load, store.
  rewrite list_lookup_insert_ne by lia. reflexivity.
Qed.

(** The arrays keep the lengths they were allocated with. *)
Lemma init_vars_wf (joy : SDL_Joystick) :
  0 <= SDL_JoystickNumAxes joy -> 0 <= SDL_JoystickNumButtons joy ->
  0 <= SDL_JoystickNumHats joy -> 0 <= SDL_JoystickNumBalls joy ->
  wf_vars joy (init_vars joy).
Proof.
  intros Ha Hb Hh Hl. unfold wf_vars, init_vars. simpl.
  rewrite !length_replicate. lia.
Qed.

Lemma dispatch_wf (joy : SDL_Joystick) (st : TestVars) (e : SDL_Event)
    (t : trace) (st' : TestVars) :
  wf_vars joy st -> dispatch joy st e = (t, Ret st') -> wf_vars joy st'.
Proof.
  unfold wf_vars. intros Hwf.
  destruct e; simpl; unfold assert; try destruct (_ <? _); simpl;
    try discriminate; intros [= <- <-]; simpl; unfold store;
    rewrite ?length_insert; exact Hwf.
Qed.

Lemma drain_wf (joy : SDL_Joystick) (pending : list SDL_Event) :
  forall st t st',
    wf_vars joy st -> drain joy st pending = (t, Ret st') -> wf_vars joy st'.
Proof.
  induction pending as [| e pending IH]; simpl; intros st t st' Hwf H.
  - injection H as <- <-. exact Hwf.
  - apply bind_Ret_inv in H as (t1 & st1 & t2 & H1 & H2 & ->).
    eapply IH; [| exact H2]. eapply dispatch_wf; eauto.
Qed.

(** Rewriting one cell of the array rewrites one row of the axes loop. *)
Lemma axis_rows_store (env : Env) (joy : SDL_Joystick) (st : TestVars)
    (i v : Z) :
  0 <= i < SDL_JoystickNumAxes joy ->
  Z.of_nat (length (axes st)) = SDL_JoystickNumAxes joy ->
  axis_rows env joy (set_axes (store (axes st) i v) st)
  = <[Z.to_nat i := axis_row env i v]> (axis_rows env joy st).
Proof.
  intros Hi Hlen. unfold axis_rows. simpl.
  apply list_eq. intros k.
  destruct (decide (k = Z.to_nat i)) as [-> | Hk].
  - rewrite list_lookup_insert_eq
      by (rewrite length_map, length_seqZ; lia).
    rewrite list_lookup_fmap, lookup_seqZ_lt by lia. simpl.
    rewrite Z2Nat.id by lia.
    rewrite load_store_same by lia. reflexivity.
  - rewrite list_lookup_insert_ne by congruence.
    rewrite !list_lookup_fmap.
    destruct (seqZ 0 (SDL_JoystickNumAxes joy) !! k) as [j |] eqn:Hj;
      [| reflexivity].
    apply lookup_seqZ in Hj as [-> Hlt]. simpl.
    rewrite load_store_other by lia. reflexivity.
Qed.

(** Around one row of the axes loop, the frame is the same whatever the row
    holds. *)
Lemma frame_axis_split (env : Env) (joy_idx : Z) (joy : SDL_Joystick)
    (rows bs hs ls : list trace) (n : nat) :
  (n < length rows)%nat ->
  exists before after,
    forall r,
      frame env joy_idx joy (<[n := r]> rows) bs hs ls
      = before ++ r ++ after.
Proof.
  intros Hn.
  exists ([move 0 0;
           printw "Joystick Name:   '%s'\n"
                  [AStr (SDL_JoystickName env joy_idx)];
           printw "Joystick Number: %d\n" [AInt joy_idx];
           printw "\n" []]
            ++ [printw "Axes %2d:\n" [AInt (SDL_JoystickNumAxes joy)]]
            ++ concat (take n rows)).
  eexists. intros r. unfold frame.
  rewrite insert_take_drop by exact Hn.
  rewrite concat_app, concat_cons.
  rewrite <- !app_assoc. reflexivity.
Qed.

(** C8: an axis-motion event for an existing axis [i] stores [v] in cell
    [i] and changes no other axis, button, hat or ball; the render that
    follows shows [v] in row [i] of the axes section, as the row's
    "  %2d: %6d  " line with arguments [i] and [v] followed by the bar for
    [v], and every other row of every section as before: the two renders
    are equal before and after that row. *)
Theorem axis_motion_isolated (env : Env) (joy_idx : Z) (joy : SDL_Joystick)
    (st : TestVars) (which i v : Z) :
  wf_vars joy st ->
  0 <= i < SDL_JoystickNumAxes joy ->
  exists st',
    dispatch joy st (SDL_JOYAXISMOTION which i v) = ([], Ret st') /\
    axes st' !! Z.to_nat i = Some v /\
    (forall j : nat, j <> Z.to_nat i -> axes st' !! j = axes st !! j) /\
    buttons st' = buttons st /\ hats st' = hats st /\ balls st' = balls st /\
    axis_rows env joy st' !! Z.to_nat i
    = Some (printw "  %2d: %6d  " [AInt i; AInt v]
              :: print_bar (bar_pos v (int_sub (COLS env) 20))
                           (int_sub (COLS env) 20)
              ++ [addch "010"%char]) /\
    (forall j : nat, j <> Z.to_nat i ->
                     axis_rows env joy st' !! j = axis_rows env joy st !! j) /\
    render env joy_idx joy st'
    = frame env joy_idx joy
            (<[Z.to_nat i := axis_row env i v]> (axis_rows env joy st))
            (button_rows joy st) (hat_rows env joy st) (ball_rows joy st) /\
    exists before after,
      render env joy_idx joy st
      = before
          ++ (printw "  %2d: %6d  " [AInt i; AInt (load (axes st) i)]
                :: print_bar (bar_pos (load (axes st) i)
                                      (int_sub (COLS env) 20))
                             (int_sub (COLS env) 20)
                ++ [addch "010"%char])
          ++ after /\
      render env joy_idx joy st'
      = before
          ++ (printw "  %2d: %6d  " [AInt i; AInt v]
                :: print_bar (bar_pos v (int_sub (COLS env) 20))
                             (int_sub (COLS env) 20)
                ++ [addch "010"%char])
          ++ after.
Proof.
  intros (Hax & _) Hi.
  exists (set_axes (store (axes st) i v) (set_something_new true st)).
  assert (Hrows :
    axis_rows env joy (set_axes (store (axes st) i v) (set_something_new true st))
    = <[Z.to_nat i := axis_row env i v]> (axis_rows env joy st)).
  { apply (axis_rows_store env joy (set_something_new true st) i v Hi Hax). }
  assert (Hlen : (Z.to_nat i < length (axis_rows env joy st))%nat).
  { unfold axis_rows. rewrite length_map, length_seqZ. lia. }
  assert (Hold : axis_rows env joy st !! Z.to_nat i
                 = Some (axis_row env i (load (axes st) i))).
  { unfold axis_rows. rewrite list_lookup_fmap, lookup_seqZ_lt by lia.
    simpl. rewrite Z2Nat.id by lia. reflexivity. }
  split; [| split; [| split; [| split; [| split; [| split; [| split;
    [| split; [| split]]]]]]]]; try reflexivity.
  - unfold dispatch, assert.
    destruct (Z.ltb_spec i (SDL_JoystickNumAxes joy)); [reflexivity | lia].
  - simpl. unfold store. apply list_lookup_insert_eq. lia.
  - intros j Hj. simpl. unfold store. apply list_lookup_insert_ne. congruence.
  - rewrite Hrows. apply list_lookup_insert_eq. exact Hlen.
  - intros j Hj. rewrite Hrows. apply list_lookup_insert_ne. congruence.
  - unfold render. rewrite Hrows. reflexivity.
  - destruct (frame_axis_split env joy_idx joy (axis_rows env joy st)
                (button_rows joy st) (hat_rows env joy st) (ball_rows joy st)
                (Z.to_nat i) Hlen) as (before & after & Hframe).
    exists before, after. split.
    + unfold render.
      rewrite <- (list_insert_id _ _ _ Hold) at 1.
      apply Hframe.
    + unfold render. rewrite Hrows. apply Hframe.
Qed.

Lemma axis_motion_isolated_witness :
  exists st' before after,
    dispatch sample_joystick (init_vars sample_joystick)
             (SDL_JOYAXISMOTION 0 1 77) = ([], Ret st') /\
    axes st' = [0; 77] /\
    render sample_env 0 sample_joystick (init_vars sample_joystick)
    = before
        ++ (printw "  %2d: %6d  " [AInt 1; AInt 0]
              :: print_bar (bar_pos 0 60) 60 ++ [addch "010"%char])
        ++ after /\
    render sample_env 0 sample_joystick st'
    = before
        ++ (printw "  %2d: %6d  " [AInt 1; AInt 77]
              :: print_bar (bar_pos 77 60) 60 ++ [addch "010"%char])
        ++ after.
Proof.
  destruct (axis_motion_isolated sample_env 0 sample_joystick
              (init_vars sample_joystick) 0 1 77)
    as (st' & Hd & _ & _ & _ & _ & _ & _ & _ & _ & before & after
        & Hold & Hnew).
  - repeat split.
  - simpl. lia.
  - exists st', before, after.
    split; [exact Hd |].
    split; [simpl in Hd; injection Hd as <-; reflexivity |].
    split; [exact Hold | exact Hnew].
Defined.

(** ** The polling loop *)

Lemma test_loop_quit (env : Env) (joy_idx : Z) (joy : SDL_Joystick)
    (st : TestVars) (script : list (list SDL_Event * Z)) :
  quit st <> 0 -> test_loop env joy_idx joy st script = ret st.
Proof.
  intros Hq. apply Z.eqb_neq in Hq.
  destruct script; simpl; rewrite Hq; reflexivity.
Qed.

Lemma drain_quit (joy : SDL_Joystick) (st : TestVars)
    (post : list SDL_Event) :
  drain joy st (SDL_QUIT :: post)
  = bind (emit [quit_notice])
         (fun _ => drain joy (set_quit 1 (set_something_new true st)) post).
Proof. reflexivity. Qed.

(** C3, as stated, fails: the event queued behind a Quit is still
    dispatched, here into axis 1, and when it is out of range it aborts the
    process before the loop reaches its exit test. *)
Lemma quit_keeps_draining :
  ~ stops_at_quit sample_joystick (init_vars sample_joystick)
                  [SDL_JOYAXISMOTION 0 1 77] /\
  drain sample_joystick (init_vars sample_joystick)
        [SDL_QUIT; SDL_JOYAXISMOTION 0 1 77]
  = ([quit_notice],
     Ret {| axes := [0; 77]; buttons := [0; 0]; hats := [0]; balls := [0; 0];
            quit := 1; something_new := true |}) /\
  drain sample_joystick (init_vars sample_joystick)
        [SDL_QUIT; SDL_JOYAXISMOTION 0 2 77]
  = ([quit_notice], Abort).
Proof.
  split; [| split; reflexivity].
  unfold stops_at_quit. vm_compute. discriminate.
Qed.

(** C3 (amended): when a Quit event is popped in a turn that runs to its
    end, the notice is printed once at that point, the events still pending
    behind it are dispatched as usual, the turn renders, and the loop then
    ends at its exit test without starting another turn, whatever else was
    pending. *)
Theorem quit_ends_loop (env : Env) (joy_idx : Z) (joy : SDL_Joystick)
    (st : TestVars) (pre post : list SDL_Event) (key : Z)
    (script : list (list SDL_Event * Z)) (t : trace) (st' : TestVars) :
  quit st = 0 ->
  tick env joy_idx joy st (pre ++ SDL_QUIT :: post) key = (t, Ret st') ->
  (exists t1 st1 t2 st2,
      drain joy st pre = (t1, Ret st1) /\
      drain joy (set_quit 1 (set_something_new true st1)) post
      = (t2, Ret st2) /\
      t = t1 ++ [quit_notice] ++ t2 ++ render env joy_idx joy st2) /\
  quit st' <> 0 /\
  test_loop env joy_idx joy st ((pre ++ SDL_QUIT :: post, key) :: script)
  = (t, Ret st').
Proof.
  intros Hq Htick.
  pose proof Htick as H. unfold tick in H.
  apply bind_Ret_inv in H as (td & sd & tr & Hdrain & H & ->).
  rewrite drain_app in Hdrain.
  apply bind_Ret_inv in Hdrain as (t1 & st1 & tq & Hpre & Hrest & ->).
  rewrite drain_quit in Hrest.
  apply bind_Ret_inv in Hrest as (tn & [] & t2 & Hn & Hpost & ->).
  injection Hn as <-.
  assert (Hnew : something_new sd = true).
  { rewrite (drain_something_new _ _ _ _ _ Hpost). reflexivity. }
  assert (Hsd : quit sd <> 0).
  { apply (drain_quit_sticky _ _ _ _ _ Hpost). simpl. lia. }
  rewrite Hnew in H.
  apply bind_Ret_inv in H as (tp & sp & te & Hp & He & ->).
  injection He as <- <-. simpl in Hp. injection Hp as <- <-.
  assert (Hst' : quit (if key =? 3
                       then set_quit 1 (set_something_new false sd)
                       else set_something_new false sd) <> 0).
  { destruct (key =? 3); simpl; [lia | exact Hsd]. }
  split; [| split].
  - exists t1, st1, t2, sd. repeat split; try assumption.
    rewrite !app_nil_r, <- !app_assoc. reflexivity.
  - exact Hst'.
  - cbn [test_loop]. rewrite Hq. cbn [Z.eqb]. rewrite Htick. cbn [bind].
    rewrite test_loop_quit by exact Hst'.
    unfold ret. rewrite app_nil_r. reflexivity.
Qed.

Lemma quit_ends_loop_witness :
  test_loop sample_env 0 sample_joystick
            (set_something_new false (init_vars sample_joystick))
            [([SDL_QUIT; SDL_JOYAXISMOTION 0 1 77], -1);
             ([SDL_JOYAXISMOTION 0 0 5], -1)]
  = ([quit_notice]
       ++ render sample_env 0 sample_joystick
            {| axes := [0; 77]; buttons := [0; 0]; hats := [0];
               balls := [0; 0]; quit := 1; something_new := true |},
     Ret {| axes := [0; 77]; buttons := [0; 0]; hats := [0]; balls := [0; 0];
            quit := 1; something_new := false |}).
Proof.
  apply (quit_ends_loop sample_env 0 sample_joystick
           (set_something_new false (init_vars sample_joystick))
           [] [SDL_JOYAXISMOTION 0 1 77] (-1)
           [([SDL_JOYAXISMOTION 0 0 5], -1)]);
    reflexivity.
Defined.




(** ** [main] *)

(** The branch of the mode chain an argument list selects, once SDL is
    initialised. *)
Lemma main_dispatch (env : Env) (prg : string) (args : list string) :
  SDL_Init_ok env = true ->
  args <> [] ->
  main env (prg :: args)
  = match args with
    | [a] =>
        bind (if streq a "--help" || streq a "-h"
              then emit (print_help prg) else ret tt)
             (fun _ =>
                bind (if streq a "--version"
                      then bind (emit [printf ("sdl-jstest "
                                               +:+ SDL_JSTEST_VERSION env
                                               +:+ "\n") []])
                                (fun _ => exit EXIT_SUCCESS)
                      else if streq a "--list" || streq a "-l"
                           then list_mode env
                           else emit (unknown_arguments prg))
                     (fun _ => ret EXIT_SUCCESS))
    | [a; b] =>
        bind (if is_test_flag a then test_mode env b
              else if is_event_flag a then event_mode env b
                   else emit (unknown_arguments prg))
             (fun _ => ret EXIT_SUCCESS)
    | _ => bind (emit (unknown_arguments prg)) (fun _ => ret EXIT_SUCCESS)
    end.
Proof.
  intros Hinit Hargs. unfold main. rewrite Hinit.
  destruct args as [| a [| b [| c rest]]]; [congruence | | |].
  - change (Z.of_nat (length [prg; a])) with 2.
    cbn [Z.eqb Pos.eqb andb nth negb]. rewrite !bind_ret_l.
    reflexivity.
  - change (Z.of_nat (length [prg; a; b])) with 3.
    cbn [Z.eqb Pos.eqb andb nth negb]. rewrite !bind_ret_l.
    reflexivity.
  - assert (H1 : (Z.of_nat (length (prg :: a :: b :: c :: rest)) =? 1) = false)
      by (apply Z.eqb_neq; simpl length; lia).
    assert (H2 : (Z.of_nat (length (prg :: a :: b :: c :: rest)) =? 2) = false)
      by (apply Z.eqb_neq; simpl length; lia).
    assert (H3 : (Z.of_nat (length (prg :: a :: b :: c :: rest)) =? 3) = false)
      by (apply Z.eqb_neq; simpl length; lia).
    rewrite H1, H2, H3.
    cbn [andb nth negb]. rewrite !bind_ret_l. reflexivity.
Qed.

(** C2, as stated, fails: a number that names no joystick gives the
    open-failure message and the exit code 0, not 1, in both modes. *)
Lemma open_failure_exits_zero :
  str2int "3" = Some 3 /\
  SDL_JoystickOpen sample_env 3 = None /\
  program sample_env ["sdl-jstest"; "--test"; "3"]
  = ([open_failure 3], Exited 0) /\
  snd (program sample_env ["sdl-jstest"; "--event"; "3"]) = Exited 0 /\
  ~ exits_nonzero (program sample_env ["sdl-jstest"; "--test"; "3"]) /\
  ~ exits_nonzero (program sample_env ["sdl-jstest"; "--event"; "3"]).
Proof.
  repeat split; intros (code & Hcode & Hne); vm_compute in Hcode; congruence.
Qed.

(** C2 (amended): for [--test N], [-t N], [--event N] and [-e N], when [N]
    is not a number the program prints the argument error and its exit code
    is 1; when [N] is a number and the joystick cannot be opened it prints
    the open-failure message first, enters no loop, and its exit code is
    0. *)
Theorem open_failure_exit (env : Env) (prg flag n : string) :
  SDL_Init_ok env = true ->
  is_test_flag flag || is_event_flag flag = true ->
  cannot_open env n ->
  exists rest,
    forallb is_stderr rest = true /\
    program env [prg; flag; n]
    = (match str2int n with
       | Some joy_idx => open_failure joy_idx
       | None =>
           fprintf_stderr
             "Error: JOYSTICKNUM argument must be a number, but was '%s'\n"
             [AStr n]
       end :: rest,
       Exited (match str2int n with Some _ => 0 | None => 1 end)).
Proof.
  intros Hinit Hflag Hopen. unfold program.
  rewrite (main_dispatch env prg [flag; n] Hinit) by discriminate.
  unfold cannot_open in Hopen.
  destruct (is_test_flag flag) eqn:Ht.
  - exists []. split; [reflexivity |].
    unfold test_mode. destruct (str2int n) as [joy_idx |].
    + rewrite bind_ret_l, Hopen. reflexivity.
    + reflexivity.
  - simpl in Hflag. rewrite Hflag.
    unfold event_mode. destruct (str2int n) as [joy_idx |].
    + exists [fprintf_stderr "Unable to init SDL: %s\n"
                             [AStr (SDL_GetError env)]].
      split; [reflexivity |].
      rewrite bind_ret_l, Hopen. reflexivity.
    + exists []. split; reflexivity.
Qed.

Lemma open_failure_exit_witness :
  exists rest,
    forallb is_stderr rest = true /\
    program sample_env ["sdl-jstest"; "--test"; "3"]
    = (open_failure 3 :: rest, Exited 0).
Proof.
  apply (open_failure_exit sample_env "sdl-jstest" "--test" "3");
    reflexivity.
Defined.

(** C9, as stated, fails: with SDL initialised an unknown argument gives
    the two lines of the usage error and the exit code 0. *)
Lemma unknown_arguments_exit_zero :
  recognized ["--bogus"] = false /\
  program sample_env ["sdl-jstest"; "--bogus"]
  = ([fprintf_stderr "%s: unknown arguments\n" [AStr "sdl-jstest"];
      fprintf_stderr "Try '%s --help' for more informations\n"
                     [AStr "sdl-jstest"]],
     Exited 0) /\
  ~ exits_nonzero (program sample_env ["sdl-jstest"; "--bogus"]).
Proof.
  repeat split. intros (code & Hcode & Hne). vm_compute in Hcode. congruence.
Qed.

(** C9 (amended): for every invocation with at least one argument whose
    arguments match none of the modes help, version, list, test and event:
    when [SDL_Init] succeeds the program writes the two lines of the usage
    error, "%s: unknown arguments" and "Try '%s --help' for more
    informations" with the program name, to the diagnostic stream, writes
    nothing else, and its exit code is 0; when [SDL_Init] fails it writes
    only the initialisation error to the diagnostic stream and its exit
    code is 1. *)
Theorem unknown_arguments_exit (env : Env) (prg : string)
    (args : list string) :
  args <> [] ->
  recognized args = false ->
  program env (prg :: args)
  = if SDL_Init_ok env
    then ([fprintf_stderr "%s: unknown arguments\n" [AStr prg];
           fprintf_stderr "Try '%s --help' for more informations\n"
                          [AStr prg]],
          Exited 0)
    else ([fprintf_stderr "Unable to init SDL: %s\n"
                          [AStr (SDL_GetError env)]],
          Exited 1).
Proof.
  intros Hargs Hrec. destruct (SDL_Init_ok env) eqn:Hinit.
  - unfold program. rewrite (main_dispatch env prg args Hinit Hargs).
    destruct args as [| a [| b [| c rest]]]; [congruence | | | reflexivity].
    + simpl in Hrec.
      apply orb_false_iff in Hrec as [Hrec Hl2].
      apply orb_false_iff in Hrec as [Hrec Hl1].
      apply orb_false_iff in Hrec as [Hrec Hv].
      rewrite Hrec, Hv, Hl1, Hl2. reflexivity.
    + simpl in Hrec.
      apply orb_false_iff in Hrec as [Hrec He2].
      apply orb_false_iff in Hrec as [Hrec He1].
      unfold is_test_flag, is_event_flag.
      rewrite Hrec, He1, He2. reflexivity.
  - unfold program, main.
    assert (H1 : (Z.of_nat (length (prg :: args)) =? 1) = false).
    { apply Z.eqb_neq. destruct args; [congruence | simpl length; lia]. }
    rewrite H1, bind_ret_l, Hinit. reflexivity.
Qed.

Lemma unknown_arguments_exit_witness :
  program sample_env ["sdl-jstest"; "--test"]
  = ([fprintf_stderr "%s: unknown arguments\n" [AStr "sdl-jstest"];
      fprintf_stderr "Try '%s --help' for more informations\n"
                     [AStr "sdl-jstest"]],
     Exited 0) /\
  program headless_env ["sdl-jstest"; "--test"]
  = ([fprintf_stderr "Unable to init SDL: %s\n"
                     [AStr "No available video device"]],
     Exited 1).
Proof.
  split.
  - apply (unknown_arguments_exit sample_env "sdl-jstest" ["--test"]);
      [discriminate | reflexivity].
  - apply (unknown_arguments_exit headless_env "sdl-jstest" ["--test"]);
      [discriminate | reflexivity].
Defined.

(** C10, as stated, fails when [SDL_Init] fails: [--help] then prints no
    help at all, only the initialisation error, and the exit code is 1. *)
Lemma help_needs_sdl :
  program headless_env ["sdl-jstest"; "--help"]
  = ([fprintf_stderr "Unable to init SDL: %s\n"
                     [AStr "No available video device"]],
     Exited 1) /\
  snd (program headless_env ["sdl-jstest"; "--help"]) <> Exited 0.
Proof. split; [reflexivity | discriminate]. Qed.

(** C10 (amended): with exactly [--help] or [-h], when [SDL_Init] succeeds
    the program prints the help text on the standard output, then also
    writes the two "unknown arguments" lines to the diagnostic stream,
    because the help test is not part of the mode chain and the chain's
    final branch runs too, and the exit code is 0; when [SDL_Init] fails it
    writes only the initialisation error and the exit code is 1. *)
Theorem help_falls_through (env : Env) (prg a : string) :
  a = "--help" \/ a = "-h" ->
  program env [prg; a]
  = if SDL_Init_ok env
    then (help_text prg
            ++ [fprintf_stderr "%s: unknown arguments\n" [AStr prg];
                fprintf_stderr "Try '%s --help' for more informations\n"
                               [AStr prg]],
          Exited 0)
    else ([fprintf_stderr "Unable to init SDL: %s\n"
                          [AStr (SDL_GetError env)]],
          Exited 1).
Proof.
  intros Ha. destruct (SDL_Init_ok env) eqn:Hinit.
  - unfold program.
    rewrite (main_dispatch env prg [a] Hinit) by discriminate.
    destruct Ha as [-> | ->]; reflexivity.
  - unfold program, main.
    change (Z.of_nat (length [prg; a])) with 2.
    cbn [Z.eqb Pos.eqb]. rewrite bind_ret_l, Hinit. reflexivity.
Qed.

Lemma help_falls_through_witness :
  program sample_env ["sdl-jstest"; "-h"]
  = (help_text "sdl-jstest"
       ++ [fprintf_stderr "%s: unknown arguments\n" [AStr "sdl-jstest"];
           fprintf_stderr "Try '%s --help' for more informations\n"
                          [AStr "sdl-jstest"]],
     Exited 0).
Proof.
  apply (help_falls_through sample_env "sdl-jstest" "-h").
  right. reflexivity.
Defined.

(** * Further properties of the code *)

(** ** The bar *)

(** Case analysis on every integer comparison of the goal. *)
Ltac case_bounds :=
  repeat match goal with
         | |- context [?a <=? ?b] => destruct (Z.leb_spec a b)
         | |- context [?a <? ?b] => destruct (Z.ltb_spec a b)
         end;
  simpl; try reflexivity; try lia.

Lemma bar_cells_marks (pos : Z) (k : nat) :
  forall m,
    bar_marks (map (fun i => if i =? pos then addch "#"%char
                             else addch " "%char)
                   (seqZ m (Z.of_nat k)))
    = if (m <=? pos) && (pos <? m + Z.of_nat k) then 1%nat else 0%nat.
Proof.
  unfold bar_marks. induction k as [| k IH]; intros m.
  - simpl. case_bounds.
  - rewrite seqZ_cons by lia.
    replace (Z.pred (Z.of_nat (S k))) with (Z.of_nat k) by lia.
    simpl map. simpl List.filter.
    destruct (Z.eqb_spec m pos) as [-> | Hne]; simpl; rewrite IH;
      case_bounds.
Qed.

(** X2: [print_bar] draws exactly one [#] when the position is a cell of
    the bar and none at all when it is not (negative, or at or beyond the
    length): an off-bar position gives an empty bar, not an error. *)
Theorem print_bar_marks (pos len : Z) :
  bar_marks (print_bar pos len)
  = if (0 <=? pos) && (pos <? len) then 1%nat else 0%nat.
Proof.
  unfold print_bar.
  assert (Happ : forall a b : trace,
             bar_marks (a ++ b) = (bar_marks a + bar_marks b)%nat).
  { intros a b. unfold bar_marks. rewrite List.filter_app, length_app.
    reflexivity. }
  rewrite !Happ.
  change (bar_marks [addch "["%char]) with 0%nat.
  change (bar_marks [addch "]"%char]) with 0%nat.
  rewrite Nat.add_0_l, Nat.add_0_r.
  destruct (Z.le_gt_cases 0 len) as [Hlen | Hlen].
  - rewrite <- (Z2Nat.id len) at 1 by lia.
    rewrite bar_cells_marks. rewrite Z2Nat.id by lia. reflexivity.
  - rewrite seqZ_nil by lia. case_bounds.
Qed.

(** X3: on a bar of valid width the mark never moves left when the axis
    value grows, and the rest value 0 sits on the middle cell. *)
Theorem bar_pos_monotone (v1 v2 w : Z) :
  is_sint16 v1 -> is_sint16 v2 -> v1 <= v2 -> 1 < w <= 32770 ->
  bar_pos v1 w <= bar_pos v2 w /\ bar_pos 0 w = (w - 1) / 2.
Proof.
  intros H1 H2 Hle Hw. split.
  - rewrite !bar_pos_exact by assumption.
    apply Z.quot_le_mono; [lia | nia].
  - rewrite bar_pos_exact by (unfold is_sint16; lia).
    rewrite Z.quot_div_nonneg by lia.
    replace ((0 + 32767) * (w - 1)) with ((w - 1) * 32767) by lia.
    change 65534 with (2 * 32767).
    rewrite Z.mul_comm at 1.
    rewrite (Z.mul_comm 2 32767), <- Z.div_div by lia.
    rewrite Z.mul_comm, Z.div_mul by lia. reflexivity.
Qed.

Lemma bar_pos_monotone_witness :
  bar_pos (-100) 60 <= bar_pos 20000 60 /\ bar_pos 0 60 = (60 - 1) / 2.
Proof.
  apply (bar_pos_monotone (-100) 20000 60); unfold is_sint16; lia.
Defined.

(** X4: on a terminal of at most 20 columns the bar of an axis row has no
    cell at all, and on one of 21 columns its single cell is always
    marked. *)
Theorem narrow_terminal_axis_row (env : Env) (i v : Z) :
  0 <= COLS env <= 21 -> is_sint16 v ->
  axis_row env i v
  = [printw "  %2d: %6d  " [AInt i; AInt v]; addch "["%char]
      ++ (if COLS env =? 21 then [addch "#"%char] else [])
      ++ [addch "]"%char; addch "010"%char].
Proof.
  intros Hc Hv. unfold axis_row, int_sub.
  rewrite int_wrap_small by (unfold in_int, INT_MIN, INT_MAX; lia).
  destruct (Z.eqb_spec (COLS env) 21) as [-> | Hne].
  - assert (Hpos : bar_pos v (21 - 20) = 0).
    { unfold is_sint16 in Hv.
      unfold bar_pos, int_div, int_mul, int_add, int_sub.
      change (int_wrap (21 - 20 - 1)) with 0.
      rewrite Z.mul_0_r. reflexivity. }
    rewrite Hpos. reflexivity.
  - unfold print_bar. rewrite seqZ_nil by lia. reflexivity.
Qed.

Lemma narrow_terminal_axis_row_witness :
  exists env,
    COLS env = 20 /\
    axis_row env 1 (-5)
    = [printw "  %2d: %6d  " [AInt 1; AInt (-5)];
       addch "["%char; addch "]"%char; addch "010"%char].
Proof.
  exists {| SDL_HAT_UP := 1; SDL_HAT_RIGHT := 2; SDL_HAT_DOWN := 4;
            SDL_HAT_LEFT := 8; SDL_JSTEST_VERSION := ""; SDL_Init_ok := true;
            SDL_GetError := ""; SDL_NumJoysticks := 0;
            SDL_JoystickOpen := fun _ => None;
            SDL_JoystickName := fun _ => ""; COLS := 20;
            poll_script := []; wait_script := [] |}.
  split; [reflexivity |].
  apply narrow_terminal_axis_row; simpl; unfold is_sint16; lia.
Defined.

(** ** The hat diagram for every value *)

Lemma hat_has_lor (h a b : Z) :
  hat_has h (Z.lor a b) = hat_has h a || hat_has h b.
Proof.
  unfold hat_has. rewrite Z.land_lor_distr_r.
  destruct (Z.eqb_spec (Z.land h a) 0) as [Ha | Ha];
    destruct (Z.eqb_spec (Z.land h b) 0) as [Hb | Hb]; simpl.
  - rewrite Ha, Hb. reflexivity.
  - apply negb_true_iff, Z.eqb_neq. rewrite Z.lor_eq_0_iff. tauto.
  - apply negb_true_iff, Z.eqb_neq. rewrite Z.lor_eq_0_iff. tauto.
  - apply negb_true_iff, Z.eqb_neq. rewrite Z.lor_eq_0_iff. tauto.
Qed.

(** X5: every hat value marks at least one cell of the diagram, and a value
    without opposing directions (not up and down together, not left and
    right together) marks exactly one. *)
Theorem hat_one_mark (env : Env) (h : Z) :
  hat_has h (SDL_HAT_UP env) && hat_has h (SDL_HAT_DOWN env) = false ->
  hat_has h (SDL_HAT_LEFT env) && hat_has h (SDL_HAT_RIGHT env) = false ->
  hat_marks (hat_args env h) = 1%nat /\
  (forall h', (1 <= hat_marks (hat_args env h') <= 4)%nat).
Proof.
  intros Hud Hlr. split.
  - unfold hat_args. rewrite !hat_has_lor.
    destruct (hat_has h (SDL_HAT_UP env)), (hat_has h (SDL_HAT_DOWN env));
      try discriminate;
      destruct (hat_has h (SDL_HAT_LEFT env)),
        (hat_has h (SDL_HAT_RIGHT env));
      try discriminate; reflexivity.
  - intros h'. unfold hat_args. rewrite !hat_has_lor.
    destruct (hat_has h' (SDL_HAT_UP env)), (hat_has h' (SDL_HAT_DOWN env)),
      (hat_has h' (SDL_HAT_LEFT env)), (hat_has h' (SDL_HAT_RIGHT env));
      unfold hat_marks; simpl; lia.
Qed.

Lemma hat_one_mark_witness :
  hat_marks (hat_args sample_env 6) = 1%nat /\
  (forall h', (1 <= hat_marks (hat_args sample_env h') <= 4)%nat).
Proof.
  apply (hat_one_mark sample_env 6); reflexivity.
Defined.

(** ** Batches of events *)

Lemma dispatch_outcome (joy : SDL_Joystick) (st : TestVars) (e : SDL_Event) :
  if in_range joy e
  then exists st', dispatch joy st e = (event_output e, Ret st')
  else dispatch joy st e = ([], Abort).
Proof.
  unfold in_range.
  destruct e; simpl; unfold assert; try destruct (_ <? _); simpl; eauto.
Qed.

(** X6: a batch is applied to its end exactly when every component event
    in it has its index below the declared count; it then prints one notice
    per Quit and one diagnostic line per unknown event, and nothing for
    component events.  Otherwise it aborts at the first event out of range,
    having printed only what the events before it print. *)
Theorem drain_outcome (joy : SDL_Joystick) (pending : list SDL_Event) :
  forall st,
    if forallb (in_range joy) pending
    then exists st',
        drain joy st pending = (flat_map event_output pending, Ret st')
    else exists pre e post,
        pending = pre ++ e :: post /\
        forallb (in_range joy) pre = true /\
        in_range joy e = false /\
        drain joy st pending = (flat_map event_output pre, Abort).
Proof.
  induction pending as [| e pending IH]; intros st.
  - simpl. exists st. reflexivity.
  - simpl. pose proof (dispatch_outcome joy st e) as Hd.
    destruct (in_range joy e) eqn:He; simpl.
    + destruct Hd as [st1 Hd]. rewrite Hd. simpl.
      specialize (IH st1).
      destruct (forallb (in_range joy) pending).
      * destruct IH as [st' ->]. exists st'. reflexivity.
      * destruct IH as (pre & e' & post & -> & Hpre & He' & ->).
        exists (e :: pre), e', post. simpl. rewrite He, Hpre.
        repeat split; assumption.
    + exists [], e, pending. rewrite Hd. repeat split. exact He.
Qed.

Lemma drain_quit_flag (joy : SDL_Joystick) (pending : list SDL_Event) :
  forall st t st',
    drain joy st pending = (t, Ret st') ->
    quit st' = if existsb is_quit pending then 1 else quit st.
Proof.
  induction pending as [| e pending IH]; simpl; intros st t st' H.
  - injection H as <- <-. reflexivity.
  - apply bind_Ret_inv in H as (t1 & st1 & t2 & H1 & H2 & ->).
    rewrite (IH _ _ _ H2).
    assert (Hq : quit st1 = if is_quit e then 1 else quit st).
    { destruct e; simpl in H1; unfold assert in H1;
        try destruct (_ <? _); simpl in H1; try discriminate;
        injection H1 as <- <-; reflexivity. }
    rewrite Hq. destruct (is_quit e), (existsb is_quit pending); reflexivity.
Qed.

(** X7: a turn of the test loop that runs to its end sets [quit] exactly
    when the batch held a Quit event or [getch()] returned 3 (Ctrl-c); the
    loop then stops after this turn, and otherwise goes on with the next
    one. *)
Theorem loop_exit_condition (env : Env) (joy_idx : Z) (joy : SDL_Joystick)
    (st : TestVars) (pending : list SDL_Event) (key : Z)
    (script : list (list SDL_Event * Z)) (t : trace) (st' : TestVars) :
  quit st = 0 ->
  tick env joy_idx joy st pending key = (t, Ret st') ->
  quit st' = (if existsb is_quit pending || (key =? 3) then 1 else 0) /\
  test_loop env joy_idx joy st ((pending, key) :: script)
  = (if existsb is_quit pending || (key =? 3)
     then (t, Ret st')
     else bind (t, Ret st') (fun s => test_loop env joy_idx joy s script)).
Proof.
  intros Hq Htick.
  assert (Hq' : quit st'
                = if existsb is_quit pending || (key =? 3) then 1 else 0).
  { pose proof Htick as H. unfold tick in H.
    apply bind_Ret_inv in H as (t1 & st1 & tr & Hdrain & H & ->).
    apply bind_Ret_inv in H as (tp & sp & te & Hp & He & ->).
    injection He as <- <-.
    apply drain_quit_flag in Hdrain. rewrite Hq in Hdrain.
    assert (Hsp : quit sp = quit st1).
    { destruct (something_new st1); simpl in Hp; injection Hp as <- <-;
        reflexivity. }
    destruct (key =? 3); simpl.
    - rewrite orb_true_r. reflexivity.
    - rewrite orb_false_r, Hsp. exact Hdrain. }
  split; [exact Hq' |].
  cbn [test_loop]. rewrite Hq. cbn [Z.eqb]. rewrite Htick.
  destruct (existsb is_quit pending || (key =? 3)); [| reflexivity].
  cbn [bind]. rewrite test_loop_quit by lia.
  unfold ret. rewrite app_nil_r. reflexivity.
Qed.

Lemma loop_exit_condition_witness :
  test_loop sample_env 0 sample_joystick
            (set_something_new false (init_vars sample_joystick))
            [([SDL_JOYAXISMOTION 0 1 77], 3); ([SDL_JOYAXISMOTION 0 0 5], -1)]
  = (render sample_env 0 sample_joystick
       (set_axes [0; 77] (init_vars sample_joystick)),
     Ret {| axes := [0; 77]; buttons := [0; 0]; hats := [0]; balls := [0; 0];
            quit := 1; something_new := false |}).
Proof.
  apply (loop_exit_condition sample_env 0 sample_joystick
           (set_something_new false (init_vars sample_joystick))
           [SDL_JOYAXISMOTION 0 1 77] 3
           [([SDL_JOYAXISMOTION 0 0 5], -1)]);
    reflexivity.
Defined.

(** X8: events for one axis overwrite each other, the last value staying,
    and events for two different axes can be applied in either order; this
    holds whether or not the indices pass the assertion. *)
Theorem axis_events_compose (joy : SDL_Joystick) (st : TestVars)
    (w1 w2 i j v1 v2 : Z) :
  0 <= i -> 0 <= j ->
  drain joy st [SDL_JOYAXISMOTION w1 i v1; SDL_JOYAXISMOTION w2 i v2]
  = drain joy st [SDL_JOYAXISMOTION w2 i v2] /\
  (i <> j ->
   drain joy st [SDL_JOYAXISMOTION w1 i v1; SDL_JOYAXISMOTION w2 j v2]
   = drain joy st [SDL_JOYAXISMOTION w2 j v2; SDL_JOYAXISMOTION w1 i v1]).
Proof.
  intros Hi Hj. split.
  - simpl. unfold assert.
    destruct (i <? SDL_JoystickNumAxes joy); [| reflexivity].
    simpl. unfold set_axes, store. simpl.
    rewrite list_insert_insert_eq. reflexivity.
  - intros Hne. simpl. unfold assert.
    destruct (i <? SDL_JoystickNumAxes joy),
      (j <? SDL_JoystickNumAxes joy); try reflexivity.
    simpl. unfold set_axes, store. simpl.
    rewrite list_insert_insert_ne by lia. reflexivity.
Qed.

Lemma axis_events_compose_witness :
  drain sample_joystick (init_vars sample_joystick)
        [SDL_JOYAXISMOTION 0 1 5; SDL_JOYAXISMOTION 0 1 9]
  = drain sample_joystick (init_vars sample_joystick)
          [SDL_JOYAXISMOTION 0 1 9] /\
  drain sample_joystick (init_vars sample_joystick)
        [SDL_JOYAXISMOTION 0 0 5; SDL_JOYAXISMOTION 0 1 9]
  = drain sample_joystick (init_vars sample_joystick)
          [SDL_JOYAXISMOTION 0 1 9; SDL_JOYAXISMOTION 0 0 5].
Proof.
  split.
  - apply (axis_events_compose sample_joystick (init_vars sample_joystick)
             0 0 1 1 5 9); simpl; lia.
  - apply (axis_events_compose sample_joystick (init_vars sample_joystick)
             0 0 0 1 5 9); simpl; lia.
Defined.

(** ** Button, hat and ball events *)

(** Rewriting one cell of an array rewrites one row of the loop that
    prints a row per cell. *)
Lemma rows_store {A} (f : Z -> Z -> A) (a : list Z) (n i v : Z) :
  0 <= i < n ->
  Z.of_nat (length a) = n ->
  map (fun k => f k (load (store a i v) k)) (seqZ 0 n)
  = <[Z.to_nat i := f i v]> (map (fun k => f k (load a k)) (seqZ 0 n)).
Proof.
  intros Hi Hlen. apply list_eq. intros k.
  destruct (decide (k = Z.to_nat i)) as [-> | Hk].
  - rewrite list_lookup_insert_eq
      by (rewrite length_map, length_seqZ; lia).
    rewrite list_lookup_fmap, lookup_seqZ_lt by lia. simpl.
    rewrite Z2Nat.id by lia.
    rewrite load_store_same by lia. reflexivity.
  - rewrite list_lookup_insert_ne by congruence.
    rewrite !list_lookup_fmap.
    destruct (seqZ 0 n !! k) as [j |] eqn:Hj; [| reflexivity].
    apply lookup_seqZ in Hj as [-> Hlt]. simpl.
    rewrite load_store_other by lia. reflexivity.
Qed.

(** X9: a button event for an existing button stores the event's [state]
    in that button's cell, whether it is a button-down or a button-up
    event, and changes nothing else; the next render differs in that
    button's row only, which shows [[#]] exactly when the state is not
    0. *)
Theorem button_event_isolated (env : Env) (joy_idx : Z) (joy : SDL_Joystick)
    (st : TestVars) (which b s : Z) :
  wf_vars joy st ->
  0 <= b < SDL_JoystickNumButtons joy ->
  exists st',
    dispatch joy st (SDL_JOYBUTTONDOWN which b s) = ([], Ret st') /\
    dispatch joy st (SDL_JOYBUTTONUP which b s) = ([], Ret st') /\
    axes st' = axes st /\ hats st' = hats st /\ balls st' = balls st /\
    quit st' = quit st /\
    button_rows joy st'
    = <[Z.to_nat b :=
          [printw "  %2d: %d  %s\n"
                  [AInt b; AInt s; AStr (if s =? 0 then "[ ]" else "[#]")]]]>
        (button_rows joy st) /\
    render env joy_idx joy st'
    = frame env joy_idx joy (axis_rows env joy st)
            (<[Z.to_nat b := button_row b s]> (button_rows joy st))
            (hat_rows env joy st) (ball_rows joy st).
Proof.
  intros (_ & Hlen & _) Hb.
  exists (set_buttons (store (buttons st) b s) (set_something_new true st)).
  assert (Hrows :
    button_rows joy (set_buttons (store (buttons st) b s)
                                 (set_something_new true st))
    = <[Z.to_nat b := button_row b s]> (button_rows joy st)).
  { apply (rows_store button_row (buttons st) _ b s Hb Hlen). }
  assert (Hlt : (b <? SDL_JoystickNumButtons joy) = true)
    by (apply Z.ltb_lt; lia).
  repeat split.
  - unfold dispatch, assert. rewrite Hlt. reflexivity.
  - unfold dispatch, assert. rewrite Hlt. reflexivity.
  - exact Hrows.
  - unfold render. rewrite Hrows. reflexivity.
Qed.

Lemma button_event_isolated_witness :
  exists st',
    dispatch sample_joystick (init_vars sample_joystick)
             (SDL_JOYBUTTONDOWN 0 1 1) = ([], Ret st') /\
    button_rows sample_joystick st'
    = [button_row 0 0;
       [printw "  %2d: %d  %s\n" [AInt 1; AInt 1; AStr "[#]"]]].
Proof.
  destruct (button_event_isolated sample_env 0 sample_joystick
              (init_vars sample_joystick) 0 1 1)
    as (st' & Hd & _ & _ & _ & _ & _ & Hrows & _).
  - repeat split.
  - simpl. lia.
  - exists st'. split; [exact Hd | exact Hrows].
Defined.

(** X10: a hat event for an existing hat stores the event's value in that
    hat's cell and changes nothing else; the next render differs in that
    hat's two lines only. *)
Theorem hat_event_isolated (env : Env) (joy_idx : Z) (joy : SDL_Joystick)
    (st : TestVars) (which h v : Z) :
  wf_vars joy st ->
  0 <= h < SDL_JoystickNumHats joy ->
  exists st',
    dispatch joy st (SDL_JOYHATMOTION which h v) = ([], Ret st') /\
    axes st' = axes st /\ buttons st' = buttons st /\ balls st' = balls st /\
    quit st' = quit st /\
    hat_rows env joy st'
    = <[Z.to_nat h :=
          [printw "  %2d: value: %d\n" [AInt h; AInt v];
           printw hat_format (hat_args env v)]]>
        (hat_rows env joy st) /\
    render env joy_idx joy st'
    = frame env joy_idx joy (axis_rows env joy st) (button_rows joy st)
            (<[Z.to_nat h := hat_row env h v]> (hat_rows env joy st))
            (ball_rows joy st).
Proof.
  intros (_ & _ & Hlen & _) Hh.
  exists (set_hats (store (hats st) h v) (set_something_new true st)).
  assert (Hrows :
    hat_rows env joy (set_hats (store (hats st) h v)
                               (set_something_new true st))
    = <[Z.to_nat h := hat_row env h v]> (hat_rows env joy st)).
  { apply (rows_store (hat_row env) (hats st) _ h v Hh Hlen). }
  assert (Hlt : (h <? SDL_JoystickNumHats joy) = true)
    by (apply Z.ltb_lt; lia).
  repeat split.
  - unfold dispatch, assert. rewrite Hlt. reflexivity.
  - exact Hrows.
  - unfold render. rewrite Hrows. reflexivity.
Qed.

Lemma hat_event_isolated_witness :
  exists st',
    dispatch sample_joystick (init_vars sample_joystick)
             (SDL_JOYHATMOTION 0 0 9) = ([], Ret st') /\
    hat_rows sample_env sample_joystick st'
    = [[printw "  %2d: value: %d\n" [AInt 0; AInt 9];
        printw hat_format (hat_args sample_env 9)]].
Proof.
  destruct (hat_event_isolated sample_env 0 sample_joystick
              (init_vars sample_joystick) 0 0 9)
    as (st' & Hd & _ & _ & _ & _ & Hrows & _).
  - repeat split.
  - simpl. lia.
  - exists st'. split; [exact Hd | exact Hrows].
Defined.

(** The two cells of a ball, and the row they give. *)
Lemma ball_rows_store (joy : SDL_Joystick) (st : TestVars) (b x y : Z) :
  0 <= b < SDL_JoystickNumBalls joy ->
  Z.of_nat (length (balls st)) = 2 * SDL_JoystickNumBalls joy ->
  ball_rows joy (set_balls (store (store (balls st) (2 * b + 0) x)
                                  (2 * b + 1) y) st)
  = <[Z.to_nat b := ball_row b x y]> (ball_rows joy st).
Proof.
  intros Hb Hlen. unfold ball_rows. simpl.
  assert (Hlen1 : Z.of_nat (length (store (balls st) (2 * b + 0) x))
                  = 2 * SDL_JoystickNumBalls joy).
  { unfold store. rewrite length_insert. exact Hlen. }
  apply list_eq. intros k.
  destruct (decide (k = Z.to_nat b)) as [-> | Hk].
  - rewrite list_lookup_insert_eq
      by (rewrite length_map, length_seqZ; lia).
    rewrite list_lookup_fmap, lookup_seqZ_lt by lia. simpl.
    rewrite Z2Nat.id by lia. f_equal. f_equal.
    + rewrite load_store_other by lia. apply load_store_same. lia.
    + apply load_store_same. lia.
  - rewrite list_lookup_insert_ne by congruence.
    rewrite !list_lookup_fmap.
    destruct (seqZ 0 (SDL_JoystickNumBalls joy) !! k) as [j |] eqn:Hj;
      [| reflexivity].
    apply lookup_seqZ in Hj as [-> Hlt]. simpl.
    rewrite !load_store_other by lia. reflexivity.
Qed.

(** X11: a ball event for an existing ball stores its two deltas in the
    two cells of that ball and changes nothing else; the row of that ball
    then shows exactly the deltas of this event (a later event replaces
    them, nothing is summed up), and every other row is as before. *)
Theorem ball_event_isolated (env : Env) (joy_idx : Z) (joy : SDL_Joystick)
    (st : TestVars) (which b x y : Z) :
  wf_vars joy st ->
  0 <= b < SDL_JoystickNumBalls joy ->
  exists st',
    dispatch joy st (SDL_JOYBALLMOTION which b x y) = ([], Ret st') /\
    axes st' = axes st /\ buttons st' = buttons st /\ hats st' = hats st /\
    quit st' = quit st /\
    ball_rows joy st'
    = <[Z.to_nat b := [printw "  %2d: %6d %6d\n" [AInt b; AInt x; AInt y]]]>
        (ball_rows joy st) /\
    render env joy_idx joy st'
    = frame env joy_idx joy (axis_rows env joy st) (button_rows joy st)
            (hat_rows env joy st)
            (<[Z.to_nat b := ball_row b x y]> (ball_rows joy st)).
Proof.
  intros (_ & _ & _ & Hlen) Hb.
  exists (set_balls (store (store (balls st) (2 * b + 0) x) (2 * b + 1) y)
                    (set_something_new true st)).
  assert (Hrows :
    ball_rows joy (set_balls (store (store (balls st) (2 * b + 0) x)
                                    (2 * b + 1) y)
                             (set_something_new true st))
    = <[Z.to_nat b := ball_row b x y]> (ball_rows joy st)).
  { apply (ball_rows_store joy (set_something_new true st) b x y Hb Hlen). }
  assert (Hlt : (b <? SDL_JoystickNumBalls joy) = true)
    by (apply Z.ltb_lt; lia).
  repeat split.
  - unfold dispatch, assert. rewrite Hlt. reflexivity.
  - exact Hrows.
  - unfold render. rewrite Hrows. reflexivity.
Qed.

Lemma ball_event_isolated_witness :
  exists st',
    drain sample_joystick (init_vars sample_joystick)
          [SDL_JOYBALLMOTION 0 0 3 (-4); SDL_JOYBALLMOTION 0 0 1 1]
    = ([], Ret st') /\
    ball_rows sample_joystick st'
    = [[printw "  %2d: %6d %6d\n" [AInt 0; AInt 1; AInt 1]]].
Proof.
  destruct (ball_event_isolated sample_env 0 sample_joystick
              (set_balls [3; -4]
                 (set_something_new true (init_vars sample_joystick)))
              0 0 1 1)
    as (st' & Hd & _ & _ & _ & _ & Hrows & _).
  - repeat split.
  - simpl. lia.
  - exists st'. split; [| exact Hrows].
    simpl in Hd. injection Hd as <-. reflexivity.
Defined.

(** ** Event mode *)

Lemma log_event_line (q : Z) (e : SDL_Event) :
  exists c, log_event q e = ([c], Ret (if is_quit e then 1 else q)) /\
            (is_quit e = true -> c = quit_notice).
Proof. destruct e; simpl; eexists; split; try reflexivity; discriminate. Qed.


Lemma event_loop_returns_or_waits (script : list (option SDL_Event)) :
  forall q, returns_or_waits (event_loop q script).
Proof.
  induction script as [| [e |] script IH]; intros q; simpl;
    destruct (q =? 0); simpl; try exact I.
  destruct (log_event_line q e) as (c & -> & _). simpl.
  specialize (IH (if is_quit e then 1 else q)).
  unfold returns_or_waits in *.
  destruct (event_loop _ script) as [t [[] | | |]]; simpl in *; auto.
Qed.



Lemma event_flag_not_test (flag : string) :
  is_event_flag flag = true -> is_test_flag flag = false.
Proof.
  unfold is_event_flag, is_test_flag, streq. intros H.
  apply orb_true_iff in H as [H | H]; apply String.eqb_eq in H; subst;
    reflexivity.
Qed.

(** X13: event mode with a numeric argument never aborts and never exits
    with a failure code, whether or not the joystick opens; whenever it
    ends, the last thing it writes is the line "Unable to init SDL" on the
    diagnostic stream, and the exit code is 0. *)
Theorem event_mode_outcome (env : Env) (prg flag n : string) (joy_idx : Z) :
  SDL_Init_ok env = true ->
  is_event_flag flag = true ->
  str2int n = Some joy_idx ->
  exists t,
    program env [prg; flag; n] = (t ++ [init_failure env], Exited 0) \/
    program env [prg; flag; n] = (t, Waiting).
Proof.
  intros Hinit Hflag Hn. unfold program.
  rewrite (main_dispatch env prg [flag; n] Hinit) by discriminate.
  rewrite (event_flag_not_test flag Hflag), Hflag.
  unfold event_mode. rewrite Hn, bind_ret_l.
  destruct (SDL_JoystickOpen env joy_idx) as [joy |].
  - pose proof (event_loop_returns_or_waits (wait_script env) 0) as Hloop.
    unfold returns_or_waits in Hloop.
    destruct (event_loop 0 (wait_script env)) as [t [[] | | |]] eqn:Hl;
      simpl in Hloop; try contradiction.
    + exists (print_joystick_info env joy_idx joy
              ++ [printf "Entering joystick test loop, press Ctrl-c to exit\n"
                         []]
              ++ t).
      left. cbn [bind emit ret]. rewrite app_nil_r. reflexivity.
    + eexists. right. cbn [bind emit]. reflexivity.
  - exists [open_failure joy_idx]. left. reflexivity.
Qed.

Lemma event_mode_outcome_witness :
  exists t,
    program scripted_env ["sdl-jstest"; "-e"; "0"]
    = (t ++ [fprintf_stderr "Unable to init SDL: %s\n" [AStr ""]], Exited 0).
Proof.
  destruct (event_mode_outcome scripted_env "sdl-jstest" "-e" "0" 0
              eq_refl eq_refl eq_refl) as [t [H | H]].
  - exists t. exact H.
  - exfalso. vm_compute in H. discriminate H.
Defined.

(** ** Test mode and the terminal *)

Lemma drain_never_exits (joy : SDL_Joystick) (pending : list SDL_Event)
    (st : TestVars) :
  never_exits (drain joy st pending).
Proof.
  pose proof (drain_outcome joy pending st) as H. unfold never_exits.
  destruct (forallb (in_range joy) pending).
  - destruct H as [st' ->]. exact I.
  - destruct H as (pre & e & post & _ & _ & _ & ->). exact I.
Qed.

Lemma tick_never_exits (env : Env) (joy_idx : Z) (joy : SDL_Joystick)
    (st : TestVars) (pending : list SDL_Event) (key : Z) :
  never_exits (tick env joy_idx joy st pending key).
Proof.
  pose proof (drain_never_exits joy pending st) as H.
  unfold never_exits, tick in *.
  destruct (drain joy st pending) as [t [st1 | code | |]]; simpl in *;
    try exact I; try contradiction.
  destruct (something_new st1); exact I.
Qed.

(** The loop ends by returning only with [quit] set, and never calls
    [exit]. *)
Lemma test_loop_outcome (env : Env) (joy_idx : Z) (joy : SDL_Joystick)
    (script : list (list SDL_Event * Z)) :
  forall st,
    match snd (test_loop env joy_idx joy st script) with
    | Ret st' => quit st' <> 0
    | Exit _ => False
    | _ => True
    end.
Proof.
  induction script as [| [pending key] script IH]; intros st; simpl.
  - destruct (Z.eqb_spec (quit st) 0); simpl; [exact I | assumption].
  - destruct (Z.eqb_spec (quit st) 0); simpl; [| assumption].
    pose proof (tick_never_exits env joy_idx joy st pending key) as Ht.
    unfold never_exits in Ht.
    destruct (tick env joy_idx joy st pending key) as [t [st1 | code | |]];
      simpl in *; try exact I; try contradiction.
    specialize (IH st1).
    destruct (test_loop env joy_idx joy st1 script) as [t' r]. exact IH.
Qed.

Lemma count_or_exit_ok (env : Env) (count : Z) (fmt : string) :
  0 <= count -> count_or_exit env count fmt = ret count.
Proof.
  intros H. unfold count_or_exit.
  destruct (Z.ltb_spec count 0); [lia | reflexivity].
Qed.

Lemma test_mode_opened (env : Env) (prg flag n : string) (joy_idx : Z)
    (joy : SDL_Joystick) :
  SDL_Init_ok env = true ->
  is_test_flag flag = true ->
  str2int n = Some joy_idx ->
  SDL_JoystickOpen env joy_idx = Some joy ->
  main env [prg; flag; n]
  = bind
      (bind (emit curses_setup)
         (fun _ =>
            bind (count_or_exit env (SDL_JoystickNumAxes joy)
                    "Unable to get SDL axes count: %s\n")
              (fun _ =>
                 bind (count_or_exit env (SDL_JoystickNumButtons joy)
                         "Unable to get SDL buttons count: %s\n")
                   (fun _ =>
                      bind (count_or_exit env (SDL_JoystickNumHats joy)
                              "Unable to get SDL hats count: %s\n")
                        (fun _ =>
                           bind (count_or_exit env (SDL_JoystickNumBalls joy)
                                   "Unable to get SDL balls count: %s\n")
                             (fun _ =>
                                bind (test_loop env joy_idx joy
                                        (init_vars joy) (poll_script env))
                                  (fun _ => emit [endwin])))))))
      (fun _ => ret EXIT_SUCCESS).
Proof.
  intros Hinit Hflag Hn Hopen.
  rewrite (main_dispatch env prg [flag; n] Hinit) by discriminate.
  rewrite Hflag. unfold test_mode. rewrite Hn, bind_ret_l, Hopen.
  reflexivity.
Qed.

Lemma no_endwin_app (a b : trace) :
  no_endwin a -> no_endwin b -> no_endwin (a ++ b).
Proof.
  unfold no_endwin. intros Ha Hb. rewrite forallb_app, Ha, Hb. reflexivity.
Qed.

Lemma no_endwin_rows {A} (f : A -> trace) (l : list A) :
  (forall a, no_endwin (f a)) -> no_endwin (concat (map f l)).
Proof.
  intros Hf. induction l as [| a l IH]; [reflexivity |].
  simpl. apply no_endwin_app; [apply Hf | exact IH].
Qed.

Lemma no_endwin_print_bar (pos len : Z) : no_endwin (print_bar pos len).
Proof.
  unfold print_bar.
  apply no_endwin_app; [reflexivity |].
  apply no_endwin_app; [| reflexivity].
  induction (seqZ 0 len) as [| i l IH]; [reflexivity |].
  simpl. destruct (i =? pos); exact IH.
Qed.

Lemma no_endwin_render (env : Env) (joy_idx : Z) (joy : SDL_Joystick)
    (st : TestVars) :
  no_endwin (render env joy_idx joy st).
Proof.
  unfold render, frame.
  repeat (apply no_endwin_app; [try reflexivity |]); try reflexivity.
  - apply no_endwin_rows. intros i. unfold axis_row.
    apply no_endwin_app; [reflexivity |].
    apply no_endwin_app; [apply no_endwin_print_bar | reflexivity].
  - apply no_endwin_rows. intros i. reflexivity.
  - apply no_endwin_rows. intros i. reflexivity.
  - apply no_endwin_rows. intros i. reflexivity.
Qed.

Lemma no_endwin_bind {A B} (m : M A) (f : A -> M B) :
  no_endwin (fst m) -> (forall a, no_endwin (fst (f a))) ->
  no_endwin (fst (bind m f)).
Proof.
  destruct m as [t [a | code | |]]; simpl; auto.
  intros Ht Hf. specialize (Hf a). destruct (f a) as [t' r]. simpl in *.
  apply no_endwin_app; assumption.
Qed.

Lemma no_endwin_dispatch (joy : SDL_Joystick) (st : TestVars)
    (e : SDL_Event) :
  no_endwin (fst (dispatch joy st e)).
Proof.
  destruct e; simpl; unfold assert; try destruct (_ <? _); reflexivity.
Qed.

Lemma no_endwin_drain (joy : SDL_Joystick) (pending : list SDL_Event) :
  forall st, no_endwin (fst (drain joy st pending)).
Proof.
  induction pending as [| e pending IH]; intros st; [reflexivity |].
  simpl. apply no_endwin_bind; [apply no_endwin_dispatch | apply IH].
Qed.

Lemma no_endwin_tick (env : Env) (joy_idx : Z) (joy : SDL_Joystick)
    (st : TestVars) (pending : list SDL_Event) (key : Z) :
  no_endwin (fst (tick env joy_idx joy st pending key)).
Proof.
  unfold tick. apply no_endwin_bind; [apply no_endwin_drain |].
  intros st1. apply no_endwin_bind; [| reflexivity].
  destruct (something_new st1); [| reflexivity].
  apply no_endwin_bind; [apply no_endwin_render | reflexivity].
Qed.

(** Nothing in the loop calls [endwin]. *)
Lemma no_endwin_test_loop (env : Env) (joy_idx : Z) (joy : SDL_Joystick)
    (script : list (list SDL_Event * Z)) :
  forall st, no_endwin (fst (test_loop env joy_idx joy st script)).
Proof.
  induction script as [| [pending key] script IH]; intros st; simpl;
    destruct (quit st =? 0); try reflexivity.
  apply no_endwin_bind; [apply no_endwin_tick | apply IH].
Qed.

(** X14: in test mode with an opened joystick whose counts are not
    negative, [endwin] is called exactly when the loop ends with [quit]
    set, as the last call, and the exit code is then 0; the loop itself
    never calls [endwin], so when an assertion fails the process aborts
    after the curses setup and the output of the loop without any
    [endwin], and the terminal is left in curses mode. *)
Theorem test_mode_terminal (env : Env) (prg flag n : string) (joy_idx : Z)
    (joy : SDL_Joystick) :
  SDL_Init_ok env = true ->
  is_test_flag flag = true ->
  str2int n = Some joy_idx ->
  SDL_JoystickOpen env joy_idx = Some joy ->
  0 <= SDL_JoystickNumAxes joy -> 0 <= SDL_JoystickNumButtons joy ->
  0 <= SDL_JoystickNumHats joy -> 0 <= SDL_JoystickNumBalls joy ->
  exists t,
    no_endwin (curses_setup ++ t) /\
    ((program env [prg; flag; n] = (curses_setup ++ t ++ [endwin], Exited 0)
      /\ exists st',
          test_loop env joy_idx joy (init_vars joy) (poll_script env)
          = (t, Ret st') /\ quit st' <> 0) \/
     (program env [prg; flag; n] = (curses_setup ++ t, Aborted)
      /\ test_loop env joy_idx joy (init_vars joy) (poll_script env)
         = (t, Abort)) \/
     (program env [prg; flag; n] = (curses_setup ++ t, Waiting)
      /\ test_loop env joy_idx joy (init_vars joy) (poll_script env)
         = (t, Pending))).
Proof.
  intros Hinit Hflag Hn Hopen Ha Hb Hh Hl. unfold program.
  rewrite (test_mode_opened env prg flag n joy_idx joy Hinit Hflag Hn Hopen).
  rewrite !count_or_exit_ok by assumption.
  pose proof (test_loop_outcome env joy_idx joy (poll_script env)
                (init_vars joy)) as Hloop.
  pose proof (no_endwin_test_loop env joy_idx joy (poll_script env)
                (init_vars joy)) as Hno.
  destruct (test_loop env joy_idx joy (init_vars joy) (poll_script env))
    as [t [st' | code | |]]; simpl in Hloop, Hno; try contradiction;
    exists t; (split; [apply no_endwin_app; [reflexivity | exact Hno] |]).
  - left. split; [| exists st'; split; [reflexivity | exact Hloop]].
    cbn [bind emit ret fst snd app]. rewrite !app_nil_r. reflexivity.
  - right. left. split; reflexivity.
  - right. right. split; reflexivity.
Qed.

Lemma test_mode_terminal_witness :
  (exists t,
      no_endwin (curses_setup ++ t) /\
      In quit_notice t /\
      program scripted_env ["sdl-jstest"; "--test"; "0"]
      = (curses_setup ++ t ++ [endwin], Exited 0)) /\
  (exists t,
      no_endwin (curses_setup ++ t) /\
      program faulty_env ["sdl-jstest"; "--test"; "0"]
      = (curses_setup ++ t, Aborted)).
Proof.
  split.
  - destruct (test_mode_terminal scripted_env "sdl-jstest" "--test" "0" 0
                sample_joystick eq_refl eq_refl eq_refl eq_refl)
      as (t & Hno & [[Hp (st' & Hl & _)] | [[Hp _] | [Hp _]]]);
      try (simpl; lia).
    + exists t. split; [exact Hno | split; [| exact Hp]].
      vm_compute in Hl. injection Hl as <- _.
      repeat (first [left; reflexivity | right]).
    + exfalso. vm_compute in Hp. discriminate Hp.
    + exfalso. vm_compute in Hp. discriminate Hp.
  - destruct (test_mode_terminal faulty_env "sdl-jstest" "--test" "0" 0
                sample_joystick eq_refl eq_refl eq_refl eq_refl)
      as (t & Hno & [[Hp _] | [[Hp _] | [Hp _]]]);
      try (simpl; lia).
    + exfalso. vm_compute in Hp. discriminate Hp.
    + exists t. split; [exact Hno | exact Hp].
    + exfalso. vm_compute in Hp. discriminate Hp.
Defined.



(** ** [main]: SDL initialisation, list mode, exit codes *)

(** X16: when [SDL_Init] fails no mode is reached: every invocation with
    at least one argument, [--help] and [--version] included, prints only
    the initialisation error and exits with code 1; without arguments the
    help is printed and the exit code is 1 as well. *)
Theorem init_failure_blocks_modes (env : Env) (argv : list string) :
  SDL_Init_ok env = false ->
  program env argv
  = if Z.of_nat (length argv) =? 1
    then (print_help (nth 0 argv ""), Exited 1)
    else ([init_failure env], Exited 1).
Proof.
  intros Hinit. unfold program, main.
  destruct (Z.of_nat (length argv) =? 1); [reflexivity |].
  rewrite bind_ret_l, Hinit. reflexivity.
Qed.

Lemma init_failure_blocks_modes_witness :
  exists env,
    program env ["sdl-jstest"; "--help"] = ([init_failure env], Exited 1).
Proof.
  exists {| SDL_HAT_UP := 1; SDL_HAT_RIGHT := 2; SDL_HAT_DOWN := 4;
            SDL_HAT_LEFT := 8; SDL_JSTEST_VERSION := ""; SDL_Init_ok := false;
            SDL_GetError := "No available video device";
            SDL_NumJoysticks := 0; SDL_JoystickOpen := fun _ => None;
            SDL_JoystickName := fun _ => ""; COLS := 80;
            poll_script := []; wait_script := [] |}.
  apply (init_failure_blocks_modes
           {| SDL_HAT_UP := 1; SDL_HAT_RIGHT := 2; SDL_HAT_DOWN := 4;
              SDL_HAT_LEFT := 8; SDL_JSTEST_VERSION := "";
              SDL_Init_ok := false;
              SDL_GetError := "No available video device";
              SDL_NumJoysticks := 0; SDL_JoystickOpen := fun _ => None;
              SDL_JoystickName := fun _ => ""; COLS := 80;
              poll_script := []; wait_script := [] |}
           ["sdl-jstest"; "--help"]).
  reflexivity.
Defined.

Lemma list_flag_only (flag : string) :
  is_list_flag flag = true ->
  streq flag "--help" || streq flag "-h" = false /\
  streq flag "--version" = false.
Proof.
  unfold is_list_flag, streq. intros H.
  apply orb_true_iff in H as [H | H]; apply String.eqb_eq in H; subst;
    split; reflexivity.
Qed.

(** X17: list mode always exits with code 0.  With no joystick it prints
    the single line "No joysticks were found"; otherwise it prints the
    count and visits every index below it: a joystick that opens has the
    seven lines of its description printed (name, number, the four counts,
    an empty line), and one that does not open gets the line "Unable to
    open joystick %d" with its index on the diagnostic stream, without
    stopping the listing. *)
Theorem list_mode_visits_all (env : Env) (prg flag : string) :
  SDL_Init_ok env = true ->
  is_list_flag flag = true ->
  exists t,
    program env [prg; flag] = (t, Exited 0) /\
    (SDL_NumJoysticks env = 0 ->
     t = [printf "No joysticks were found\n" []]) /\
    (SDL_NumJoysticks env <> 0 ->
     head t = Some (printf "Found %d joystick(s)\n\n"
                           [AInt (SDL_NumJoysticks env)])) /\
    (forall joy_idx,
        0 <= joy_idx < SDL_NumJoysticks env ->
        match SDL_JoystickOpen env joy_idx with
        | Some joy =>
            incl (described (SDL_JoystickName env joy_idx) joy_idx joy) t
        | None =>
            In (fprintf_stderr "Unable to open joystick %d\n" [AInt joy_idx])
               t
        end).
Proof.
  intros Hinit Hflag. unfold program.
  rewrite (main_dispatch env prg [flag] Hinit) by discriminate.
  destruct (list_flag_only flag Hflag) as [Hh Hv]. rewrite Hh, Hv.
  unfold is_list_flag in Hflag. rewrite Hflag, bind_ret_l.
  unfold list_mode.
  destruct (Z.eqb_spec (SDL_NumJoysticks env) 0) as [H0 | H0].
  - eexists. split; [reflexivity |]. split; [reflexivity |].
    split; [congruence |]. intros joy_idx Hi. lia.
  - eexists. split; [reflexivity |]. split; [congruence |].
    split; [reflexivity |].
    intros joy_idx Hi.
    assert (Hin : In joy_idx (seqZ 0 (SDL_NumJoysticks env))).
    { apply list_elem_of_In, elem_of_seqZ. lia. }
    rewrite app_nil_r. cbn [app].
    destruct (SDL_JoystickOpen env joy_idx) as [joy |] eqn:Hopen.
    + change (described (SDL_JoystickName env joy_idx) joy_idx joy)
        with (print_joystick_info env joy_idx joy).
      intros c Hc. right. apply in_flat_map.
      exists joy_idx. rewrite Hopen. split; assumption.
    + right. apply in_flat_map.
      exists joy_idx. rewrite Hopen. split; [assumption | left; reflexivity].
Qed.

Lemma list_mode_visits_all_witness :
  exists t,
    program three_env ["sdl-jstest"; "--list"] = (t, Exited 0) /\
    head t = Some (printf "Found %d joystick(s)\n\n" [AInt 3]) /\
    incl (described "pad" 0 sample_joystick) t /\
    In (fprintf_stderr "Unable to open joystick %d\n" [AInt 1]) t /\
    incl (described "wheel" 2 sample_joystick) t.
Proof.
  destruct (list_mode_visits_all three_env "sdl-jstest" "--list"
              eq_refl eq_refl)
    as (t & Hp & _ & Hhead & Hall).
  exists t. split; [exact Hp |].
  split; [apply Hhead; discriminate |].
  split; [apply (Hall 0); simpl; lia |].
  split; [apply (Hall 1); simpl; lia | apply (Hall 2); simpl; lia].
Defined.

Lemma exit_01_bind {A B} (m : M A) (f : A -> M B) :
  exit_01 m -> (forall a, exit_01 (f a)) -> exit_01 (bind m f).
Proof.
  unfold exit_01. destruct m as [t [a | code | |]]; simpl; auto.
  intros _ Hf. specialize (Hf a). destruct (f a). exact Hf.
Qed.

Lemma final_01_bind {A} (m : M A) (f : A -> M Z) :
  exit_01 m -> (forall a, final_01 (f a)) -> final_01 (bind m f).
Proof.
  unfold exit_01, final_01. destruct m as [t [a | code | |]]; simpl; auto.
  intros _ Hf. specialize (Hf a). destruct (f a). exact Hf.
Qed.

Lemma exit_01_of_never_exits {A} (m : M A) : never_exits m -> exit_01 m.
Proof.
  unfold never_exits, exit_01. destruct (snd m); auto; contradiction.
Qed.

Lemma exit_01_emit (t : trace) : exit_01 (emit t).
Proof. exact I. Qed.

Lemma exit_01_count (env : Env) (count : Z) (fmt : string) :
  exit_01 (count_or_exit env count fmt).
Proof.
  unfold count_or_exit. destruct (count <? 0); [| exact I].
  right. reflexivity.
Qed.

Lemma exit_01_index (n : string) :
  exit_01 (match str2int n with
           | Some v => ret v
           | None => bad_index n
           end).
Proof. destruct (str2int n); [exact I | right; reflexivity]. Qed.

Lemma exit_01_test_mode (env : Env) (n : string) : exit_01 (test_mode env n).
Proof.
  unfold test_mode. apply exit_01_bind; [apply exit_01_index |].
  intros joy_idx. destruct (SDL_JoystickOpen env joy_idx) as [joy |];
    [| exact I].
  apply exit_01_bind; [exact I | intros _].
  repeat (apply exit_01_bind; [apply exit_01_count | intros _]).
  apply exit_01_bind; [| intros _; exact I].
  apply exit_01_of_never_exits. unfold never_exits.
  pose proof (test_loop_outcome env joy_idx joy (poll_script env)
                (init_vars joy)) as H.
  destruct (snd (test_loop env joy_idx joy (init_vars joy) (poll_script env)));
    auto.
Qed.

Lemma exit_01_event_mode (env : Env) (n : string) :
  exit_01 (event_mode env n).
Proof.
  unfold event_mode. apply exit_01_bind; [apply exit_01_index |].
  intros joy_idx. apply exit_01_bind; [| intros _; exact I].
  destruct (SDL_JoystickOpen env joy_idx) as [joy |]; [| exact I].
  apply exit_01_bind; [exact I | intros _].
  apply exit_01_bind; [exact I | intros _].
  pose proof (event_loop_returns_or_waits (wait_script env) 0) as H.
  unfold returns_or_waits in H. unfold exit_01.
  destruct (snd (event_loop 0 (wait_script env))); auto; contradiction.
Qed.

Lemma exit_01_list_mode (env : Env) : exit_01 (list_mode env).
Proof.
  unfold list_mode. destruct (SDL_NumJoysticks env =? 0); exact I.
Qed.

Lemma final_01_main (env : Env) (argv : list string) :
  final_01 (main env argv).
Proof.
  unfold main. apply final_01_bind.
  - destruct (_ =? 1); [| exact I]. right. reflexivity.
  - intros _. destruct (SDL_Init_ok env); simpl negb; cbv iota.
    + apply final_01_bind; [destruct (_ && _); exact I | intros _].
      apply final_01_bind; [| intros _; left; reflexivity].
      destruct (_ && _); [left; reflexivity |].
      destruct (_ && _); [apply exit_01_list_mode |].
      destruct (_ && _); [apply exit_01_test_mode |].
      destruct (_ && _); [apply exit_01_event_mode | exact I].
    + right. reflexivity.
Qed.

Lemma event_mode_never_aborts (env : Env) (n : string) (t : trace) :
  event_mode env n <> (t, Abort).
Proof.
  unfold event_mode. destruct (str2int n) as [v |]; [| discriminate].
  rewrite bind_ret_l.
  destruct (SDL_JoystickOpen env v); [| discriminate].
  pose proof (event_loop_returns_or_waits (wait_script env) 0) as Hl.
  unfold returns_or_waits in Hl. cbn [bind emit].
  destruct (event_loop 0 (wait_script env)) as [t' [[] | | |]];
    simpl in Hl; try contradiction; discriminate.
Qed.

Lemma bind_Abort_inv {A B} (m : M A) (f : A -> M B) (t : trace) :
  bind m f = (t, Abort) ->
  (exists t1, m = (t1, Abort)) \/
  (exists t1 a t2, m = (t1, Ret a) /\ f a = (t2, Abort)).
Proof.
  destruct m as [t1 [a | code | |]]; simpl; try discriminate.
  - destruct (f a) as [t2 r] eqn:Hf. intros [= <- ->].
    right. exists t1, a, t2. split; [reflexivity | exact Hf].
  - intros [= <-]. left. exists t1. reflexivity.
Qed.

(** X18: whatever the arguments and the environment, when the process
    exits its exit code is 0 or 1; it is aborted only in test mode, the one
    place with assertions. *)
Theorem exit_codes (env : Env) (argv : list string) :
  match snd (program env argv) with
  | Exited code => code = 0 \/ code = 1
  | Aborted =>
      Z.of_nat (length argv) = 3 /\ is_test_flag (nth 1 argv "") = true
  | Waiting => True
  end.
Proof.
  pose proof (final_01_main env argv) as H.
  unfold program, final_01 in *.
  destruct (main env argv) as [t [code | code | |]] eqn:Hm; simpl in *;
    auto.
  unfold main in Hm.
  set (argc := Z.of_nat (length argv)) in *.
  destruct (argc =? 1); [discriminate Hm |].
  rewrite bind_ret_l in Hm.
  destruct (SDL_Init_ok env); [| discriminate Hm]. cbn [negb] in Hm.
  apply bind_Abort_inv in Hm as [[t1 Hm] | (t1 & [] & t2 & _ & Hm)].
  { destruct (_ && _) in Hm; discriminate Hm. }
  apply bind_Abort_inv in Hm as [[t3 Hm] | (t3 & [] & t4 & _ & Hm)];
    [| discriminate Hm].
  destruct ((argc =? 2) && streq (nth 1 argv "") "--version");
    [discriminate Hm |].
  destruct ((argc =? 2) && (streq (nth 1 argv "") "--list"
                            || streq (nth 1 argv "") "-l")).
  { unfold list_mode in Hm.
    destruct (SDL_NumJoysticks env =? 0); discriminate Hm. }
  destruct (Z.eqb_spec argc 3) as [H3 | H3]; cbn [andb] in Hm;
    [| discriminate Hm].
  unfold is_test_flag.
  destruct (streq (nth 1 argv "") "--test" || streq (nth 1 argv "") "-t");
    [split; [exact H3 | reflexivity] |].
  exfalso.
  destruct (streq (nth 1 argv "") "--event" || streq (nth 1 argv "") "-e");
    [| discriminate Hm].
  exact (event_mode_never_aborts env _ _ Hm).
Qed.

(** ** The arrays through the loop *)

Lemma tick_wf (env : Env) (joy_idx : Z) (joy : SDL_Joystick)
    (st : TestVars) (pending : list SDL_Event) (key : Z) (t : trace)
    (st' : TestVars) :
  wf_vars joy st ->
  tick env joy_idx joy st pending key = (t, Ret st') ->
  wf_vars joy st'.
Proof.
  intros Hwf H. unfold tick in H.
  apply bind_Ret_inv in H as (t1 & st1 & tr & Hdrain & H & ->).
  apply bind_Ret_inv in H as (tp & sp & te & Hp & He & ->).
  injection He as <- <-.
  pose proof (drain_wf joy pending st t1 st1 Hwf Hdrain) as H1.
  assert (Hsp : wf_vars joy sp).
  { destruct (something_new st1); simpl in Hp; injection Hp as <- <-;
      exact H1. }
  destruct (key =? 3); exact Hsp.
Qed.

(** X19: for a joystick with non-negative counts, the four arrays have,
    when the loop ends, the lengths they were allocated with (twice the
    count for the balls), whatever events were applied: no event grows,
    shrinks or reallocates them. *)
Theorem test_loop_keeps_lengths (env : Env) (joy_idx : Z)
    (joy : SDL_Joystick) (script : list (list SDL_Event * Z))
    (t : trace) (st' : TestVars) :
  0 <= SDL_JoystickNumAxes joy -> 0 <= SDL_JoystickNumButtons joy ->
  0 <= SDL_JoystickNumHats joy -> 0 <= SDL_JoystickNumBalls joy ->
  test_loop env joy_idx joy (init_vars joy) script = (t, Ret st') ->
  Z.of_nat (length (axes st')) = SDL_JoystickNumAxes joy /\
  Z.of_nat (length (buttons st')) = SDL_JoystickNumButtons joy /\
  Z.of_nat (length (hats st')) = SDL_JoystickNumHats joy /\
  Z.of_nat (length (balls st')) = 2 * SDL_JoystickNumBalls joy.
Proof.
  intros Ha Hb Hh Hl.
  pose proof (init_vars_wf joy Ha Hb Hh Hl) as Hwf.
  revert Hwf. generalize (init_vars joy) as st. revert t.
  induction script as [| [pending key] script IH]; intros t st Hwf H.
  - simpl in H. destruct (quit st =? 0); [discriminate H |].
    injection H as <- <-. exact Hwf.
  - simpl in H. destruct (quit st =? 0).
    + apply bind_Ret_inv in H as (t1 & st1 & t2 & Htick & Hloop & ->).
      apply (IH t2 st1); [| exact Hloop].
      exact (tick_wf env joy_idx joy st pending key t1 st1 Hwf Htick).
    + injection H as <- <-. exact Hwf.
Qed.

Lemma test_loop_keeps_lengths_witness :
  Z.of_nat (length (axes {| axes := [0; 9]; buttons := [0; 0]; hats := [0];
          balls := [3; 4]; quit := 1; something_new := false |})) = 2 /\
  Z.of_nat (length (buttons {| axes := [0; 9]; buttons := [0; 0]; hats := [0];
          balls := [3; 4]; quit := 1; something_new := false |})) = 2 /\
  Z.of_nat (length (hats {| axes := [0; 9]; buttons := [0; 0]; hats := [0];
          balls := [3; 4]; quit := 1; something_new := false |})) = 1 /\
  Z.of_nat (length (balls {| axes := [0; 9]; buttons := [0; 0]; hats := [0];
          balls := [3; 4]; quit := 1; something_new := false |})) = 2 * 1.
Proof.
  apply (test_loop_keeps_lengths sample_env 0 sample_joystick
           [([SDL_JOYBALLMOTION 0 0 3 4; SDL_JOYAXISMOTION 0 1 9], 3)]
           (render sample_env 0 sample_joystick
              (set_axes [0; 9]
                 (set_balls [3; 4] (init_vars sample_joystick)))));
    try (simpl; lia).
  reflexivity.
Defined.

(** ** The texts [str2int] accepts *)

(** X1: [str2int] succeeds exactly on the empty text, with value 0, and on
    the texts made of blanks, an optional sign and at least one decimal
    digit whose value lies within [int], with that value; so a text with
    anything after the digits, a sign alone, blanks alone or a number out
    of range is rejected, and an accepted value is always within [int]. *)
Theorem str2int_accepted_texts (s : string) (v : Z) :
  (str2int s = Some v <->
   (s = "" /\ v = 0) \/ (decimal_text s v /\ in_int v)) /\
  (str2int s = Some v -> in_int v).
Proof.
  split; [apply str2int_accepts |].
  intros H. apply str2int_accepts in H as [[_ ->] | [_ H]].
  - unfold in_int, INT_MIN, INT_MAX. lia.
  - exact H.
Qed.
